(** * OSMnx [stats] module: geometric and topological network measures

    A shallow embedding of [osmnx/stats.py] and the properties of its
    street-network statistics.

    Conventions of the embedding.
    - Python [int] is [Z].  Python [float] is idealised as an exact rational
      [Q]: rounding is not modelled, equalities between floats are stated
      with [==] ([Qeq]).
    - A NumPy [float64] scalar is [float64]: a rational or one of the IEEE
      special values, because NumPy arithmetic yields [inf] and [nan] where
      Python arithmetic raises.
    - A raised exception is the [Raise] outcome of the [result] type.
    - [G.nodes] is a finite map from node id to the node's attributes,
      [G.edges] the list of edges in iteration order. *)

From Stdlib Require Import ZArith QArith Qabs Lia.
From stdpp Require Import gmap strings list fin_maps.

Local Open Scope Z_scope.

(** ** Exceptions and results *)

Inductive exn : Set :=
| ValueError
| ZeroDivisionError
| IndexError
| KeyError.

#[global] Instance exn_eq_dec : EqDecision exn.
Proof. solve_decision. Defined.

Inductive result (A : Type) : Type :=
| Ok (a : A)
| Raise (e : exn).

Arguments Ok {A} a.
Arguments Raise {A} e.

Global Instance result_ret : MRet result := fun A a => Ok a.
Global Instance result_fmap : FMap result := fun A B f r =>
  match r with
  | Ok a => Ok (f a)
  | Raise e => Raise e
  end.
Global Instance result_bind : MBind result := fun A B k r =>
  match r with
  | Ok a => k a
  | Raise e => Raise e
  end.

(** ** Python numbers *)

(** [a / b] on Python numbers: [ZeroDivisionError] on a zero divisor. *)
Definition py_truediv (a b : Q) : result Q :=
  if Qeq_bool b 0 then Raise ZeroDivisionError else Ok (a / b)%Q.

(** [sum(...)] over ints and over floats. *)
Definition py_sum_int (l : list Z) : Z := fold_left Z.add l 0.
Definition py_sum_float (l : list Q) : Q := fold_left Qplus l 0%Q.

(** [sum(...)] over booleans: [True] counts as 1. *)
Definition py_sum_bool (l : list bool) : Z :=
  py_sum_int (map (fun b : bool => if b then 1 else 0) l).

(** [max(l)]: [None] stands for the [ValueError] on an empty sequence. *)
Definition py_max (l : list Z) : option Z :=
  match l with
  | [] => None
  | z :: l' => Some (fold_left Z.max l' z)
  end.

(** [range(n)] *)
Definition py_range (n : Z) : list Z := map Z.of_nat (seq 0 (Z.to_nat n)).

(** [l.count(i)] *)
Definition py_count (l : list Z) (i : Z) : Z :=
  Z.of_nat (length (List.filter (Z.eqb i) l)).

(** ** The graph *)

Record node_data : Type := {
  y : Q;
  x : Q;
  street_count : option Z
}.

Record edge : Type := {
  e_u : Z;
  e_v : Z;
  e_key : Z;
  e_length : Q
}.

Record Graph : Type := {
  is_directed : bool;
  crs : string;
  nodes : gmap Z node_data;
  edges : list edge
}.

(** ** Streets per node *)

(** [nx.get_node_attributes(G, "street_count")]: the nodes that carry the
    attribute, with its value. *)
Definition streets_per_node (G : Graph) : gmap Z Z :=
  omap street_count (nodes G).

(** The condition under which [streets_per_node] logs its warning. *)
Definition streets_per_node_warns (G : Graph) : bool :=
  bool_decide (dom (streets_per_node G) ≠ dom (nodes G)).

Definition spn_vals (G : Graph) : list Z := (map_to_list (streets_per_node G)).*2.

Definition streets_per_node_avg (G : Graph) : result Q :=
  py_truediv (inject_Z (py_sum_int (spn_vals G)))
             (inject_Z (Z.of_nat (size (nodes G)))).

Definition streets_per_node_counts (G : Graph) : result (list (Z * Z)) :=
  match py_max (spn_vals G) with
  | None => Raise ValueError
  | Some mx => Ok (map (fun i => (i, py_count (spn_vals G) i)) (py_range (mx + 1)))
  end.

Definition streets_per_node_proportions (G : Graph) : result (list (Z * Q)) :=
  let n := Z.of_nat (size (nodes G)) in
  spnc ← streets_per_node_counts G;
  mapM (fun ic : Z * Z => q ← py_truediv (inject_Z ic.2) (inject_Z n); Ok (ic.1, q)) spnc.

(** ** Intersections *)

(** The sum of line 127 over a per-node mapping and a node set. *)
Definition intersection_sum (spn : gmap Z Z) (node_ids : gset Z) (min_streets : Z) : Z :=
  py_sum_bool
    (map (fun nc : Z * Z => (min_streets <=? nc.2) && bool_decide (nc.1 ∈ node_ids))
         (map_to_list spn)).

Definition intersection_count (G : Graph) (min_streets : Z) : Z :=
  intersection_sum (streets_per_node G) (dom (nodes G)) min_streets.

(** The entry of a node in the per-node mapping, if it has one. *)
Definition counted (nd : Z * node_data) : option (Z * Z) :=
  c ← street_count nd.2; Some (nd.1, c).

(** A node carries a street count of at least [min_streets]. *)
Definition has_streets (min_streets : Z) (d : node_data) : bool :=
  match street_count d with
  | Some c => min_streets <=? c
  | None => false
  end.

(** ** Metrics of the undirected view *)

Definition street_segment_count (Gu : Graph) : result Z :=
  if is_directed Gu then Raise ValueError
  else Ok (Z.of_nat (length (edges Gu))).

Definition street_length_total (Gu : Graph) : result Q :=
  if is_directed Gu then Raise ValueError
  else Ok (py_sum_float (map e_length (edges Gu))).

Definition edge_length_total (G : Graph) : Q :=
  py_sum_float (map e_length (edges G)).

Definition self_loop_proportion (Gu : Graph) : result Q :=
  if is_directed Gu then Raise ValueError
  else py_truediv (inject_Z (py_sum_bool (map (fun e => e_u e =? e_v e) (edges Gu))))
                  (inject_Z (Z.of_nat (length (edges Gu)))).

(** ** NumPy scalars *)

Inductive float64 : Type :=
| Fin (q : Q)
| PInf
| NInf
| NaN.

Definition np_isnan (f : float64) : bool :=
  match f with
  | NaN => true
  | _ => false
  end.

Definition np_add (a b : float64) : float64 :=
  match a, b with
  | NaN, _ | _, NaN => NaN
  | PInf, NInf | NInf, PInf => NaN
  | PInf, _ | _, PInf => PInf
  | NInf, _ | _, NInf => NInf
  | Fin p, Fin q => Fin (p + q)
  end.

(** [a.sum()] of a one-dimensional array; the empty sum is [0.0]. *)
Definition np_sum (l : list float64) : float64 := fold_left np_add l (Fin 0).

(** [a / b] with [a] a Python number and [b] a NumPy [float64]: NumPy's
    division is used, which signals a zero divisor with a warning and an
    [inf] or [nan] result, so the outcome is always [Ok]. *)
Definition np_rtruediv (a : Q) (b : float64) : result float64 :=
  Ok match b with
     | NaN => NaN
     | PInf | NInf => Fin 0
     | Fin q =>
         if Qeq_bool q 0 then
           if Qeq_bool a 0 then NaN else if Qle_bool 0 a then PInf else NInf
         else Fin (a / q)
     end.

(** [try: r  except e: handler] *)
Definition try_except {A : Type} (r : result A) (e : exn) (handler : result A) : result A :=
  match r with
  | Ok a => Ok a
  | Raise e' => if decide (e' = e) then handler else Raise e'
  end.

(** ** Circuity and the report *)

Inductive value : Type :=
| VInt (z : Z)
| VFloat (q : Q)
| VNumpy (f : float64)
| VNone
| VCounts (h : list (Z * Z))
| VProportions (h : list (Z * Q)).

(** [G.nodes[u]]: [KeyError] on an unknown node. *)
Definition node_lookup (G : Graph) (u : Z) : result node_data :=
  match nodes G !! u with
  | Some d => Ok d
  | None => Raise KeyError
  end.

(** Truth value of a number in [if q:]: zero is false.  ([None] is false
    too; an optional argument is matched on first.) *)
Definition py_bool (q : Q) : bool := negb (Qeq_bool q 0).

Section Collaborators.

(** The modules [projection], [distance], [simplification] and
    [utils_graph] are collaborators of [stats]; the functions of theirs
    that [stats] calls are parameters here. *)
Variable is_projected : string -> bool.
Variable euclidean_dist_vec : list Q -> list Q -> list Q -> list Q -> list float64.
Variable great_circle_vec : list Q -> list Q -> list Q -> list Q -> list float64.
Variable consolidate_intersections : Graph -> Q -> bool -> bool -> list (Q * Q).
Variable get_undirected : Graph -> Graph.

Definition circuity_avg (Gu : Graph) : result (option float64) :=
  if is_directed Gu then Raise ValueError
  else
    (* extract the edges' endpoint nodes' coordinates *)
    coords ← mapM (fun e => nu ← node_lookup Gu (e_u e);
                            nv ← node_lookup Gu (e_v e);
                            Ok (y nu, x nu, y nv, x nv)) (edges Gu);
    match coords with
    | [] =>
        (* [np.array([])] is one-dimensional: [coords[:, 0]] *)
        Raise IndexError
    | _ :: _ =>
        let y1 := map (fun c : Q * Q * Q * Q => c.1.1.1) coords in
        let x1 := map (fun c : Q * Q * Q * Q => c.1.1.2) coords in
        let y2 := map (fun c : Q * Q * Q * Q => c.1.2) coords in
        let x2 := map (fun c : Q * Q * Q * Q => c.2) coords in
        let sl_dists :=
          if is_projected (crs Gu) then euclidean_dist_vec y1 x1 y2 x2
          else great_circle_vec y1 x1 y2 x2 in
        (* return the ratio, handling possible division by zero *)
        let sl_dists_total := np_sum (List.filter (fun d => negb (np_isnan d)) sl_dists) in
        try_except (Some <$> np_rtruediv (edge_length_total Gu) sl_dists_total)
                   ZeroDivisionError (Ok None)
    end.

Definition circuity_value (c : option float64) : value :=
  match c with
  | Some f => VNumpy f
  | None => VNone
  end.

(** The parameters [clean_intersects], [tolerance] and [circuity_dist]
    are deprecated: they only trigger warnings, see
    [basic_stats_warnings]. *)
Definition basic_stats (G : Graph) (area clean_int_tol : option Q)
  : result (gmap string value) :=
  let Gu := get_undirected G in
  let stats : gmap string value := ∅ in
  let n := Z.of_nat (size (nodes G)) in
  let stats := <["n" := VInt n]> stats in
  let m := Z.of_nat (length (edges G)) in
  let stats := <["m" := VInt m]> stats in
  k_avg ← py_truediv (inject_Z (2 * m)) (inject_Z n);
  let stats := <["k_avg" := VFloat k_avg]> stats in
  let elt := edge_length_total G in
  let stats := <["edge_length_total" := VFloat elt]> stats in
  ela ← py_truediv elt (inject_Z m);
  let stats := <["edge_length_avg" := VFloat ela]> stats in
  spna ← streets_per_node_avg G;
  let stats := <["streets_per_node_avg" := VFloat spna]> stats in
  spnc ← streets_per_node_counts G;
  let stats := <["streets_per_node_counts" := VCounts spnc]> stats in
  spnp ← streets_per_node_proportions G;
  let stats := <["streets_per_node_proportions" := VProportions spnp]> stats in
  let ic := intersection_count G 2 in
  let stats := <["intersection_count" := VInt ic]> stats in
  slt ← street_length_total Gu;
  let stats := <["street_length_total" := VFloat slt]> stats in
  ssc ← street_segment_count Gu;
  let stats := <["street_segment_count" := VInt ssc]> stats in
  sla ← py_truediv slt (inject_Z ssc);
  let stats := <["street_length_avg" := VFloat sla]> stats in
  ca ← circuity_avg Gu;
  let stats := <["circuity_avg" := circuity_value ca]> stats in
  slp ← self_loop_proportion Gu;
  let stats := <["self_loop_proportion" := VFloat slp]> stats in
  (* calculate clean intersection counts if requested *)
  let cic tol := Z.of_nat (length (consolidate_intersections G tol false false)) in
  let stats :=
    match clean_int_tol with
    | Some tol =>
        if py_bool tol then <["clean_intersection_count" := VInt (cic tol)]> stats
        else stats
    | None => stats
    end in
  (* can only calculate density measures if area was provided *)
  match area with
  | Some a =>
      let area_km := (a / 1000000)%Q in
      nd ← py_truediv (inject_Z n) area_km;
      let stats := <["node_density_km" := VFloat nd]> stats in
      id ← py_truediv (inject_Z ic) area_km;
      let stats := <["intersection_density_km" := VFloat id]> stats in
      ed ← py_truediv elt area_km;
      let stats := <["edge_density_km" := VFloat ed]> stats in
      sd ← py_truediv slt area_km;
      let stats := <["street_density_km" := VFloat sd]> stats in
      match clean_int_tol with
      | Some tol =>
          if py_bool tol then
            cid ← py_truediv (inject_Z (cic tol)) area_km;
            Ok (<["clean_intersection_density_km" := VFloat cid]> stats)
          else Ok stats
      | None => Ok stats
      end
  | None => Ok stats
  end.

End Collaborators.

(** The warnings of [basic_stats] for its deprecated parameters. *)
Definition basic_stats_warnings (clean_intersects : option bool) (tolerance : option Q)
    (circuity_dist : option string) : list string :=
  (if circuity_dist is Some _ then ["circuity_dist is deprecated"] else []) ++
  (if clean_intersects is Some _ then ["clean_intersects is deprecated"] else []) ++
  (if tolerance is Some _ then ["tolerance is deprecated"] else []).

(** ** The undirected view *)

(** Two edges join the same pair of nodes, in either direction. *)
Definition same_endpoints (e1 e2 : edge) : bool :=
  (e_u e1 =? e_u e2) && (e_v e1 =? e_v e2) || (e_u e1 =? e_v e2) && (e_v e1 =? e_u e2).

(** Two edges are duplicates: same pair of nodes and same attribute values. *)
Definition duplicate_edge (e1 e2 : edge) : bool :=
  same_endpoints e1 e2 && Qeq_bool (e_length e1) (e_length e2).

Fixpoint drop_duplicates (seen l : list edge) : list edge :=
  match l with
  | [] => []
  | e :: l' =>
      if existsb (duplicate_edge e) seen then drop_duplicates seen l'
      else e :: drop_duplicates (e :: seen) l'
  end.

(** Modelled from the spec: [utils_graph.get_undirected], the
    Undirected-View Adapter, is not among the sources.  The spec has it
    derive an undirected multigraph that keeps the nodes, the CRS and the
    edge attributes, where a pair of directed edges between the same two
    nodes collapses into a single undirected edge, and parallel edges with
    different attribute values are all preserved. *)
Definition to_undirected (G : Graph) : Graph :=
  {| is_directed := false;
     crs := crs G;
     nodes := nodes G;
     edges := drop_duplicates [] (edges G) |}.

(** No two edges of the list are duplicates of one another. *)
Fixpoint no_duplicate_edges (l : list edge) : bool :=
  match l with
  | [] => true
  | e :: l' => negb (existsb (duplicate_edge e) l') && no_duplicate_edges l'
  end.

(** ** Sample collaborators and graphs *)

(** A CRS oracle: everything but plain latitude-longitude is projected. *)
Definition planar_crs (c : string) : bool := negb (String.eqb c "epsg:4326").

(** Straight-line distance between points that share a coordinate, where it
    is the absolute difference of the other one; undefined elsewhere. *)
Definition axis_dist (y1 x1 y2 x2 : Q) : float64 :=
  if Qeq_bool y1 y2 then Fin (Qabs (x1 - x2))
  else if Qeq_bool x1 x2 then Fin (Qabs (y1 - y2))
  else NaN.

Fixpoint axis_dist_vec (y1 x1 y2 x2 : list Q) : list float64 :=
  match y1, x1, y2, x2 with
  | a :: y1', b :: x1', c :: y2', d :: x2' =>
      axis_dist a b c d :: axis_dist_vec y1' x1' y2' x2'
  | _, _, _, _ => []
  end.

(** A consolidation that merges nothing: one cluster per node with more
    than one street. *)
Definition no_merge (G : Graph) (tol : Q) (rebuild_graph dead_ends : bool) : list (Q * Q) :=
  map (fun nd : Z * node_data => (x nd.2, y nd.2))
      (List.filter (fun nd : Z * node_data =>
                      match street_count nd.2 with
                      | Some c => dead_ends || (2 <=? c)
                      | None => false
                      end)
                   (map_to_list (nodes G))).

Definition mk_node (yy xx : Z) (sc : option Z) : node_data :=
  {| y := inject_Z yy; x := inject_Z xx; street_count := sc |}.

Definition mk_edge (u v : Z) (len : Z) : edge :=
  {| e_u := u; e_v := v; e_key := 0; e_length := inject_Z len |}.

(** A square block: four corners, each side a two-way street of 100 m. *)
Definition square : Graph :=
  {| is_directed := true;
     crs := "epsg:32610";
     nodes := list_to_map [(1, mk_node 0 0 (Some 2)); (2, mk_node 0 100 (Some 2));
                           (3, mk_node 100 100 (Some 2)); (4, mk_node 100 0 (Some 2))];
     edges := [mk_edge 1 2 100; mk_edge 2 1 100; mk_edge 2 3 100; mk_edge 3 2 100;
               mk_edge 3 4 100; mk_edge 4 3 100; mk_edge 4 1 100; mk_edge 1 4 100] |}.

(** The same block with one-way streets only. *)
Definition one_way_square : Graph :=
  {| is_directed := true;
     crs := "epsg:32610";
     nodes := nodes square;
     edges := [mk_edge 1 2 100; mk_edge 2 3 100; mk_edge 3 4 100; mk_edge 4 1 100] |}.

(** A single node with one self-loop of 50 m. *)
Definition self_loop : Graph :=
  {| is_directed := false;
     crs := "epsg:32610";
     nodes := {[ 1 := mk_node 0 0 (Some 1) ]};
     edges := [mk_edge 1 1 50] |}.

(** An undirected graph with nodes and no edge. *)
Definition edgeless : Graph :=
  {| is_directed := false;
     crs := "epsg:32610";
     nodes := {[ 1 := mk_node 0 0 (Some 0) ]};
     edges := [] |}.

(** Two nodes, only one of which carries a street count. *)
Definition half_counted : Graph :=
  {| is_directed := true;
     crs := "epsg:32610";
     nodes := list_to_map [(1, mk_node 0 0 (Some 1)); (2, mk_node 0 100 None)];
     edges := [mk_edge 1 2 100] |}.

(** ** Notions used in the further properties *)

(** The rows of the coordinates array of [circuity_avg]. *)
Definition edge_coords (Gu : Graph) : result (list (Q * Q * Q * Q)) :=
  mapM (fun e => nu ← node_lookup Gu (e_u e);
                 nv ← node_lookup Gu (e_v e);
                 Ok (y nu, x nu, y nv, x nv)) (edges Gu).

(** The straight-line distances that [circuity_avg] takes for these rows. *)
Definition sl_dists (is_projected : string -> bool)
    (euclidean_dist_vec great_circle_vec : list Q -> list Q -> list Q -> list Q -> list float64)
    (Gu : Graph) (coords : list (Q * Q * Q * Q)) : list float64 :=
  let y1 := map (fun c : Q * Q * Q * Q => c.1.1.1) coords in
  let x1 := map (fun c : Q * Q * Q * Q => c.1.1.2) coords in
  let y2 := map (fun c : Q * Q * Q * Q => c.1.2) coords in
  let x2 := map (fun c : Q * Q * Q * Q => c.2) coords in
  if is_projected (crs Gu) then euclidean_dist_vec y1 x1 y2 x2
  else great_circle_vec y1 x1 y2 x2.

Definition finite_part (d : float64) : option Q :=
  match d with
  | Fin q => Some q
  | _ => None
  end.

Definition is_inf (d : float64) : bool :=
  match d with
  | PInf | NInf => true
  | _ => false
  end.

(** The keys that [basic_stats] always sets, and the ones that depend on
    [area] and [clean_int_tol]. *)
Definition report_core_keys : list string :=
  ["n"; "m"; "k_avg"; "edge_length_total"; "edge_length_avg";
   "streets_per_node_avg"; "streets_per_node_counts"; "streets_per_node_proportions";
   "intersection_count"; "street_length_total"; "street_segment_count";
   "street_length_avg"; "circuity_avg"; "self_loop_proportion"].

Definition report_optional_keys : list string :=
  ["clean_intersection_count"; "node_density_km"; "intersection_density_km";
   "edge_density_km"; "street_density_km"; "clean_intersection_density_km"].

(** A graph without nodes. *)
Definition empty_graph : Graph :=
  {| is_directed := true; crs := "epsg:32610"; nodes := ∅; edges := [] |}.

(** [basic_stats] with the sample collaborators. *)
Definition sample_stats (G : Graph) (area clean_int_tol : option Q)
  : result (gmap string value) :=
  basic_stats planar_crs axis_dist_vec axis_dist_vec no_merge to_undirected
              G area clean_int_tol.

Definition is_Ok {A : Type} (r : result A) : bool :=
  match r with
  | Ok _ => true
  | Raise _ => false
  end.

(** ** Extended statistics *)

(** A dictionary from nodes to numbers, in iteration order. *)
Abbreviation node_dict := (list (Z * Q)).

(** The graph-library functions that [extended_stats] calls, each of which
    may raise. *)
Record networkx : Type := {
  get_digraph : Graph -> string -> result Graph;
  nx_Graph : Graph -> result Graph;
  get_largest_component : Graph -> bool -> result Graph;
  average_neighbor_degree : Graph -> option string -> result node_dict;
  degree_centrality : Graph -> result node_dict;
  clustering : Graph -> option string -> result node_dict;
  average_clustering : Graph -> option string -> result Q;
  pagerank : Graph -> string -> result node_dict;
  node_connectivity : Graph -> result Z;
  edge_connectivity : Graph -> result Z;
  average_node_connectivity : Graph -> result Q;
  single_source_dijkstra_path_length : Graph -> Z -> string -> result node_dict;
  eccentricity : Graph -> list (Z * node_dict) -> result node_dict;
  diameter : Graph -> node_dict -> result Q;
  radius : Graph -> node_dict -> result Q;
  center : Graph -> node_dict -> result (list Z);
  periphery : Graph -> node_dict -> result (list Z);
  closeness_centrality : Graph -> string -> result node_dict;
  betweenness_centrality : Graph -> string -> result node_dict
}.

Inductive xvalue : Type :=
| XDict (d : node_dict)
| XFloat (q : Q)
| XInt (z : Z)
| XNode (node : Z)
| XNodes (l : list Z).

(** [sum(d.values()) / len(d)] *)
Definition dict_mean (d : node_dict) : result Q :=
  py_truediv (py_sum_float d.*2) (inject_Z (Z.of_nat (length d))).

(** [d[k]]: [KeyError] on a missing key. *)
Definition dict_get (d : node_dict) (k : Z) : result Q :=
  match List.find (fun kv : Z * Q => kv.1 =? k) d with
  | Some kv => Ok kv.2
  | None => Raise KeyError
  end.

(** [max(d, key=lambda x: d[x])] and [min(d, key=lambda x: d[x])]: the
    first key whose value is the largest, or the smallest; [ValueError] on
    an empty dictionary.  The value of a key of [d] is the one it is paired
    with. *)
Definition py_max_key (d : node_dict) : result Z :=
  match d with
  | [] => Raise ValueError
  | kv :: d' =>
      Ok (fold_left (fun best kv' : Z * Q =>
                       if Qlt_le_dec best.2 kv'.2 then kv' else best) d' kv).1
  end.

Definition py_min_key (d : node_dict) : result Z :=
  match d with
  | [] => Raise ValueError
  | kv :: d' =>
      Ok (fold_left (fun best kv' : Z * Q =>
                       if Qlt_le_dec kv'.2 best.2 then kv' else best) d' kv).1
  end.

(** The deprecation warning that [extended_stats] always emits is not
    part of its result. *)
Definition extended_stats (nx : networkx) (G : Graph)
    (connectivity anc ecc bc cc : bool) : result (gmap string xvalue) :=
  let stats : gmap string xvalue := ∅ in
  D ← get_digraph nx G "length";
  Gu ← nx_Graph nx D;
  Gs ← get_largest_component nx G true;
  avg_neighbor_degree ← average_neighbor_degree nx G None;
  let stats := <["avg_neighbor_degree" := XDict avg_neighbor_degree]> stats in
  and_avg ← dict_mean avg_neighbor_degree;
  let stats := <["avg_neighbor_degree_avg" := XFloat and_avg]> stats in
  avg_wtd_nbr_deg ← average_neighbor_degree nx G (Some "length");
  let stats := <["avg_weighted_neighbor_degree" := XDict avg_wtd_nbr_deg]> stats in
  awnd_avg ← dict_mean avg_wtd_nbr_deg;
  let stats := <["avg_weighted_neighbor_degree_avg" := XFloat awnd_avg]> stats in
  dc ← degree_centrality nx G;
  let stats := <["degree_centrality" := XDict dc]> stats in
  dc_avg ← dict_mean dc;
  let stats := <["degree_centrality_avg" := XFloat dc_avg]> stats in
  clu ← clustering nx Gu None;
  let stats := <["clustering_coefficient" := XDict clu]> stats in
  clu_avg ← average_clustering nx Gu None;
  let stats := <["clustering_coefficient_avg" := XFloat clu_avg]> stats in
  cluw ← clustering nx Gu (Some "length");
  let stats := <["clustering_coefficient_weighted" := XDict cluw]> stats in
  cluw_avg ← average_clustering nx Gu (Some "length");
  let stats := <["clustering_coefficient_weighted_avg" := XFloat cluw_avg]> stats in
  pr ← pagerank nx D "length";
  let stats := <["pagerank" := XDict pr]> stats in
  pagerank_max_node ← py_max_key pr;
  let stats := <["pagerank_max_node" := XNode pagerank_max_node]> stats in
  pagerank_max ← dict_get pr pagerank_max_node;
  let stats := <["pagerank_max" := XFloat pagerank_max]> stats in
  pagerank_min_node ← py_min_key pr;
  let stats := <["pagerank_min_node" := XNode pagerank_min_node]> stats in
  pagerank_min ← dict_get pr pagerank_min_node;
  let stats := <["pagerank_min" := XFloat pagerank_min]> stats in
  stats ← (if connectivity then
             nc ← node_connectivity nx Gs;
             let stats := <["node_connectivity" := XInt nc]> stats in
             ec ← edge_connectivity nx Gs;
             Ok (<["edge_connectivity" := XInt ec]> stats)
           else Ok stats);
  stats ← (if anc then
             nca ← average_node_connectivity nx G;
             Ok (<["node_connectivity_avg" := XFloat nca]> stats)
           else Ok stats);
  stats ← (if ecc then
             sp ← mapM (fun source =>
                          d ← single_source_dijkstra_path_length nx Gs source "length";
                          Ok (source, d))
                       (map_to_list (nodes Gs)).*1;
             e ← eccentricity nx Gs sp;
             let stats := <["eccentricity" := XDict e]> stats in
             dia ← diameter nx Gs e;
             let stats := <["diameter" := XFloat dia]> stats in
             rad ← radius nx Gs e;
             let stats := <["radius" := XFloat rad]> stats in
             cen ← center nx Gs e;
             let stats := <["center" := XNodes cen]> stats in
             per ← periphery nx Gs e;
             Ok (<["periphery" := XNodes per]> stats)
           else Ok stats);
  stats ← (if cc then
             close_cent ← closeness_centrality nx G "length";
             let stats := <["closeness_centrality" := XDict close_cent]> stats in
             cc_avg ← dict_mean close_cent;
             Ok (<["closeness_centrality_avg" := XFloat cc_avg]> stats)
           else Ok stats);
  stats ← (if bc then
             btwn_cent ← betweenness_centrality nx D "length";
             let stats := <["betweenness_centrality" := XDict btwn_cent]> stats in
             bc_avg ← dict_mean btwn_cent;
             Ok (<["betweenness_centrality_avg" := XFloat bc_avg]> stats)
           else Ok stats);
  Ok stats.

(** A graph library that gives every node the value 1 and every measure of
    the graph the value 1. *)
Definition ones (G : Graph) : node_dict :=
  map (fun nd : Z * node_data => (nd.1, 1%Q)) (map_to_list (nodes G)).

Definition unit_networkx : networkx :=
  {| get_digraph := fun G _ => Ok G;
     nx_Graph := fun G => Ok (to_undirected G);
     get_largest_component := fun G _ => Ok G;
     average_neighbor_degree := fun G _ => Ok (ones G);
     degree_centrality := fun G => Ok (ones G);
     clustering := fun G _ => Ok (ones G);
     average_clustering := fun _ _ => Ok 1%Q;
     pagerank := fun G _ => Ok (ones G);
     node_connectivity := fun _ => Ok 1;
     edge_connectivity := fun _ => Ok 1;
     average_node_connectivity := fun _ => Ok 1%Q;
     single_source_dijkstra_path_length := fun G _ _ => Ok (ones G);
     eccentricity := fun G _ => Ok (ones G);
     diameter := fun _ _ => Ok 1%Q;
     radius := fun _ _ => Ok 1%Q;
     center := fun G _ => Ok (map_to_list (nodes G)).*1;
     periphery := fun G _ => Ok (map_to_list (nodes G)).*1;
     closeness_centrality := fun G _ => Ok (ones G);
     betweenness_centrality := fun G _ => Ok (ones G) |}.

(** The keys of the report of [extended_stats] for given flags. *)
Definition extended_keys (connectivity anc ecc bc cc : bool) : list string :=
  ["avg_neighbor_degree"; "avg_neighbor_degree_avg";
   "avg_weighted_neighbor_degree"; "avg_weighted_neighbor_degree_avg";
   "degree_centrality"; "degree_centrality_avg";
   "clustering_coefficient"; "clustering_coefficient_avg";
   "clustering_coefficient_weighted"; "clustering_coefficient_weighted_avg";
   "pagerank"; "pagerank_max_node"; "pagerank_max"; "pagerank_min_node"; "pagerank_min"] ++
  (if connectivity then ["node_connectivity"; "edge_connectivity"] else []) ++
  (if anc then ["node_connectivity_avg"] else []) ++
  (if ecc then ["eccentricity"; "diameter"; "radius"; "center"; "periphery"] else []) ++
  (if cc then ["closeness_centrality"; "closeness_centrality_avg"] else []) ++
  (if bc then ["betweenness_centrality"; "betweenness_centrality_avg"] else []).

(** * Properties *)

(** ** Sums *)

Lemma fold_left_Zadd_acc (l : list Z) (a : Z) :
  fold_left Z.add l a = a + fold_left Z.add l 0.
Proof.
  revert a. induction l as [|z l IH]; intros a; simpl; [lia|].
  rewrite (IH (a + z)), (IH (0 + z)). lia.
Qed.

Lemma py_sum_int_cons (z : Z) (l : list Z) :
  py_sum_int (z :: l) = z + py_sum_int l.
Proof. unfold py_sum_int. simpl. rewrite fold_left_Zadd_acc. lia. Qed.

Lemma py_sum_bool_cons (b : bool) (l : list bool) :
  py_sum_bool (b :: l) = (if b then 1 else 0) + py_sum_bool l.
Proof. unfold py_sum_bool. simpl map. apply py_sum_int_cons. Qed.

Lemma py_sum_bool_filter (l : list bool) :
  py_sum_bool l = Z.of_nat (length (List.filter (fun b => b) l)).
Proof.
  induction l as [|b l IH]; [reflexivity|].
  rewrite py_sum_bool_cons, IH. destruct b; simpl; lia.
Qed.

Lemma py_sum_bool_map_filter {A : Type} (f : A -> bool) (l : list A) :
  py_sum_bool (map f l) = Z.of_nat (length (List.filter f l)).
Proof.
  induction l as [|a l IH]; [reflexivity|].
  simpl map. rewrite py_sum_bool_cons, IH. simpl. destruct (f a); simpl; lia.
Qed.

Lemma py_sum_bool_bounds (l : list bool) :
  0 <= py_sum_bool l <= Z.of_nat (length l).
Proof.
  induction l as [|b l IH]; [unfold py_sum_bool, py_sum_int; simpl; lia|].
  rewrite py_sum_bool_cons. destruct b; simpl length; lia.
Qed.

Lemma py_sum_bool_map_le {A : Type} (f g : A -> bool) (l : list A) :
  (forall a, f a = true -> g a = true) ->
  py_sum_bool (map f l) <= py_sum_bool (map g l).
Proof.
  intros Hfg. induction l as [|a l IH]; [reflexivity|].
  simpl map. rewrite !py_sum_bool_cons.
  specialize (Hfg a). destruct (f a), (g a); try lia.
Qed.

(** ** Intersection counts *)

(** C7: raising the threshold [min_streets] never raises the count of
    intersections: for [j <= k], [intersection_count G k] is at most
    [intersection_count G j]. *)
Theorem intersection_count_antitone (G : Graph) (j k : Z) :
  j <= k -> intersection_count G k <= intersection_count G j.
Proof.
  intros Hjk. unfold intersection_count, intersection_sum.
  apply py_sum_bool_map_le. intros [node count]; simpl.
  rewrite !andb_true_iff, !Z.leb_le. intros [Hk Hin]. split; [lia|exact Hin].
Qed.

Lemma intersection_count_antitone_witness :
  intersection_count square 3 <= intersection_count square 2.
Proof. apply (intersection_count_antitone square 2 3). lia. Defined.

Lemma py_sum_int_perm (l1 l2 : list Z) :
  l1 ≡ₚ l2 -> py_sum_int l1 = py_sum_int l2.
Proof.
  induction 1 as [|z l1 l2 _ IH|z1 z2 l|l1 l2 l3 _ IH1 _ IH2].
  - reflexivity.
  - rewrite !py_sum_int_cons, IH. reflexivity.
  - rewrite !py_sum_int_cons. lia.
  - congruence.
Qed.

Lemma py_sum_bool_perm {A : Type} (f : A -> bool) (l1 l2 : list A) :
  l1 ≡ₚ l2 -> py_sum_bool (map f l1) = py_sum_bool (map f l2).
Proof.
  intros Hp. unfold py_sum_bool. apply py_sum_int_perm.
  rewrite Hp. reflexivity.
Qed.

(** ** The per-node mapping as a list *)

Lemma map_to_list_streets_per_node (m : gmap Z node_data) :
  map_to_list (omap street_count m) ≡ₚ omap counted (map_to_list m).
Proof.
  induction m as [|i d m Hi _ IH] using map_first_key_ind.
  - rewrite omap_empty, !map_to_list_empty. reflexivity.
  - rewrite (map_to_list_insert m i d Hi). simpl. unfold counted at 1. simpl.
    destruct (street_count d) as [c|] eqn:Hc; simpl.
    + rewrite (omap_insert_Some _ _ _ _ _ Hc).
      rewrite map_to_list_insert by (rewrite lookup_omap, Hi; reflexivity).
      rewrite IH. reflexivity.
    + rewrite (omap_insert_None _ _ _ _ Hc).
      rewrite delete_id by (rewrite lookup_omap, Hi; reflexivity).
      exact IH.
Qed.

Lemma py_sum_bool_omap {A B : Type} (f : A -> option B) (g : B -> bool) (l : list A) :
  py_sum_bool (map g (omap f l)) =
  py_sum_bool (map (fun a => match f a with Some b => g b | None => false end) l).
Proof.
  induction l as [|a l IH]; [reflexivity|].
  change (omap f (a :: l)) with
    (match f a with Some b => b :: omap f l | None => omap f l end).
  simpl map. rewrite py_sum_bool_cons, <- IH.
  destruct (f a) as [b|]; [simpl map; apply py_sum_bool_cons|lia].
Qed.

(** C10: the count of line 127 takes an entry of the per-node mapping
    exactly when its street count reaches [min_streets] and its node is in
    the node set, so that an entry for a node outside the node set adds
    nothing; [intersection_count G] is the number of nodes of [G] that
    carry a street count of at least [min_streets]. *)
Theorem intersection_count_only_present_nodes :
  (forall (spn : gmap Z Z) (node_ids : gset Z) (min_streets : Z),
      intersection_sum spn node_ids min_streets =
      Z.of_nat (length (List.filter
                          (fun nc : Z * Z =>
                             bool_decide (min_streets <= nc.2 ∧ nc.1 ∈ node_ids))
                          (map_to_list spn)))) ∧
  (forall (spn : gmap Z Z) (node_ids : gset Z) (min_streets node count : Z),
      spn !! node = None -> node ∉ node_ids ->
      intersection_sum (<[node := count]> spn) node_ids min_streets =
      intersection_sum spn node_ids min_streets) ∧
  (forall (G : Graph) (min_streets : Z),
      intersection_count G min_streets =
      Z.of_nat (length (List.filter (fun nd : Z * node_data => has_streets min_streets nd.2)
                                    (map_to_list (nodes G))))).
Proof.
  split; [|split].
  - intros spn ids k. unfold intersection_sum.
    rewrite py_sum_bool_map_filter. do 2 f_equal.
    apply List.filter_ext. intros [n c]; simpl.
    destruct (Z.leb_spec k c); simpl.
    + apply bool_decide_ext. tauto.
    + symmetry. apply bool_decide_eq_false. intros [Hle _]. lia.
  - intros spn ids k n c Hnone Hout. unfold intersection_sum.
    rewrite (py_sum_bool_perm _ _ _ (map_to_list_insert spn n c Hnone)).
    simpl map. rewrite py_sum_bool_cons. simpl.
    rewrite (bool_decide_eq_false_2 _ Hout), andb_false_r. lia.
  - intros G k. unfold intersection_count, intersection_sum, streets_per_node.
    rewrite (py_sum_bool_perm _ _ _ (map_to_list_streets_per_node (nodes G))).
    rewrite py_sum_bool_omap, py_sum_bool_map_filter. do 2 f_equal.
    apply List.filter_ext_in. intros [n d] Hin. unfold counted, has_streets; simpl.
    destruct (street_count d) as [c|]; simpl; [|reflexivity].
    rewrite bool_decide_eq_true_2, andb_true_r; [reflexivity|].
    apply elem_of_dom. exists d. apply elem_of_map_to_list.
    apply list_elem_of_In. exact Hin.
Qed.

Lemma intersection_count_only_present_nodes_witness :
  intersection_sum (<[7 := 3]> (streets_per_node square)) (dom (nodes square)) 2 =
  intersection_sum (streets_per_node square) (dom (nodes square)) 2.
Proof.
  apply (proj1 (proj2 intersection_count_only_present_nodes)).
  - vm_compute. reflexivity.
  - intros Hin. apply elem_of_dom in Hin. destruct Hin as [d Hd].
    vm_compute in Hd. discriminate Hd.
Defined.

(** ** Division *)

Lemma py_truediv_nonzero (a : Q) (b : Z) :
  b ≠ 0 -> py_truediv a (inject_Z b) = Ok (a / inject_Z b)%Q.
Proof.
  intros Hb. unfold py_truediv.
  destruct (Qeq_bool (inject_Z b) 0) eqn:E; [|reflexivity].
  apply Qeq_bool_eq in E. unfold Qeq in E. simpl in E. lia.
Qed.

Lemma py_truediv_zero (a : Q) :
  py_truediv a (inject_Z 0) = Raise ZeroDivisionError.
Proof. reflexivity. Qed.

Lemma Qdiv_Z_unit_interval (s n : Z) :
  0 <= s <= n -> 0 < n -> (0 <= inject_Z s / inject_Z n <= 1)%Q.
Proof.
  intros Hs Hn.
  assert (Hpos : (0 < inject_Z n)%Q) by (unfold Qlt; simpl; lia).
  split.
  - apply Qle_shift_div_l; [exact Hpos|]. unfold Qle; simpl. lia.
  - apply Qle_shift_div_r; [exact Hpos|]. unfold Qle; simpl. lia.
Qed.

Lemma Qdiv_Z_antitone (s k n : Z) :
  0 <= s -> 0 < k <= n -> (inject_Z s / inject_Z n <= inject_Z s / inject_Z k)%Q.
Proof.
  intros Hs Hkn. unfold Qdiv, Qle, Qmult, Qinv; simpl.
  destruct n as [|n|n]; try lia. destruct k as [|k|k]; try lia. simpl. nia.
Qed.

(** ** Metrics of the undirected view *)

(** C4: each of the four metrics of the undirected view raises
    [ValueError], the precondition error, on a directed graph, whatever the
    collaborators are, and so yields no result; on an undirected graph
    [street_segment_count] is the number of edges. *)
Theorem undirected_only_metrics
    (is_projected : string -> bool)
    (euclidean_dist_vec great_circle_vec : list Q -> list Q -> list Q -> list Q -> list float64) :
  (forall G : Graph, is_directed G = true ->
     street_segment_count G = Raise ValueError ∧
     street_length_total G = Raise ValueError ∧
     self_loop_proportion G = Raise ValueError ∧
     circuity_avg is_projected euclidean_dist_vec great_circle_vec G = Raise ValueError) ∧
  (forall Gu : Graph, is_directed Gu = false ->
     street_segment_count Gu = Ok (Z.of_nat (length (edges Gu)))).
Proof.
  split.
  - intros G Hd.
    unfold street_segment_count, street_length_total, self_loop_proportion, circuity_avg.
    rewrite Hd. repeat split.
  - intros Gu Hu. unfold street_segment_count. rewrite Hu. reflexivity.
Qed.

Lemma undirected_only_metrics_witness :
  (street_segment_count square = Raise ValueError ∧
   street_length_total square = Raise ValueError ∧
   self_loop_proportion square = Raise ValueError ∧
   circuity_avg planar_crs axis_dist_vec axis_dist_vec square = Raise ValueError) ∧
  street_segment_count (to_undirected square) = Ok 4.
Proof.
  split.
  - apply (proj1 (undirected_only_metrics planar_crs axis_dist_vec axis_dist_vec) square).
    reflexivity.
  - apply (proj2 (undirected_only_metrics planar_crs axis_dist_vec axis_dist_vec)
             (to_undirected square)).
    reflexivity.
Defined.

(** C8: on an undirected graph with at least one edge
    [self_loop_proportion] returns a value between 0 and 1; on an
    undirected graph without edges it raises [ZeroDivisionError], and so
    does not return 0. *)
Theorem self_loop_proportion_range (Gu : Graph) :
  is_directed Gu = false ->
  (edges Gu ≠ [] -> exists p : Q, self_loop_proportion Gu = Ok p ∧ (0 <= p <= 1)%Q) ∧
  (edges Gu = [] -> self_loop_proportion Gu = Raise ZeroDivisionError).
Proof.
  intros Hu. unfold self_loop_proportion. rewrite Hu. split.
  - intros Hne.
    assert (Hlen : 0 < Z.of_nat (length (edges Gu))).
    { destruct (edges Gu); [contradiction|simpl; lia]. }
    rewrite py_truediv_nonzero by lia.
    eexists; split; [reflexivity|].
    apply Qdiv_Z_unit_interval; [|exact Hlen].
    pose proof (py_sum_bool_bounds (map (fun e => e_u e =? e_v e) (edges Gu))) as Hb.
    rewrite length_map in Hb. exact Hb.
  - intros He. rewrite He. reflexivity.
Qed.

Lemma self_loop_proportion_range_witness :
  (exists p : Q, self_loop_proportion self_loop = Ok p ∧ (0 <= p <= 1)%Q) ∧
  self_loop_proportion edgeless = Raise ZeroDivisionError.
Proof.
  split.
  - apply (proj1 (self_loop_proportion_range self_loop eq_refl)). discriminate.
  - apply (proj2 (self_loop_proportion_range edgeless eq_refl)). reflexivity.
Defined.

(** ** Streets per node: average and histogram *)

Lemma py_sum_int_app (l1 l2 : list Z) :
  py_sum_int (l1 ++ l2) = py_sum_int l1 + py_sum_int l2.
Proof.
  induction l1 as [|z l1 IH]; [reflexivity|].
  simpl app. rewrite !py_sum_int_cons, IH. lia.
Qed.

Lemma py_sum_int_map_add {A : Type} (f g : A -> Z) (l : list A) :
  py_sum_int (map (fun a => f a + g a) l) = py_sum_int (map f l) + py_sum_int (map g l).
Proof.
  induction l as [|a l IH]; [reflexivity|].
  simpl map. rewrite !py_sum_int_cons, IH. lia.
Qed.

Lemma py_range_S (n : nat) :
  py_range (Z.of_nat (S n)) = py_range (Z.of_nat n) ++ [Z.of_nat n].
Proof.
  unfold py_range. rewrite !Nat2Z.id, seq_S, map_app. reflexivity.
Qed.

(** Summing [w i] over the indices [i] of [range(n)] that equal [z] gives
    [w z] when [z] is in the range. *)
Lemma py_sum_int_range_pick (w : Z -> Z) (z : Z) (n : nat) :
  py_sum_int (map (fun i => if i =? z then w i else 0) (py_range (Z.of_nat n))) =
  if decide (0 <= z < Z.of_nat n) then w z else 0.
Proof.
  induction n as [|n IH]; [simpl; case_decide; [lia|reflexivity]|].
  rewrite py_range_S, map_app, py_sum_int_app, IH. simpl map.
  rewrite py_sum_int_cons. change (py_sum_int []) with 0.
  destruct (Z.eqb_spec (Z.of_nat n) z) as [Heq|Hne]; repeat case_decide;
    rewrite ?Heq; lia.
Qed.

Lemma py_count_cons (z : Z) (l : list Z) (i : Z) :
  py_count (z :: l) i = (if i =? z then 1 else 0) + py_count l i.
Proof.
  unfold py_count. simpl. destruct (i =? z); simpl length; lia.
Qed.

(** The weighted sum of the histogram of [l] over [range(n)] is the sum of
    the weights of the elements of [l], when these all lie in the range. *)
Lemma py_sum_int_histogram (w : Z -> Z) (l : list Z) (n : nat) :
  Forall (fun z => 0 <= z < Z.of_nat n) l ->
  py_sum_int (map (fun i => w i * py_count l i) (py_range (Z.of_nat n))) =
  py_sum_int (map w l).
Proof.
  induction 1 as [|z l Hz _ IH].
  - simpl map. induction (py_range (Z.of_nat n)) as [|i r IHr]; [reflexivity|].
    simpl map. rewrite py_sum_int_cons, IHr. unfold py_count; simpl. lia.
  - simpl map. rewrite py_sum_int_cons, <- IH.
    rewrite <- (decide_True (w z) 0 Hz), <- (py_sum_int_range_pick w z n).
    rewrite <- py_sum_int_map_add. f_equal. apply map_ext. intros i.
    rewrite py_count_cons. destruct (i =? z); lia.
Qed.

Lemma py_max_spec (l : list Z) :
  l ≠ [] -> exists mx, py_max l = Some mx ∧ Forall (fun z => z <= mx) l ∧ mx ∈ l.
Proof.
  destruct l as [|a l]; [contradiction|]. intros _. unfold py_max.
  eexists; split; [reflexivity|].
  revert a. induction l as [|b l IH]; intros a; simpl.
  - split; [repeat constructor; lia|left].
  - destruct (IH (Z.max a b)) as [Hall Hin]. split.
    + inversion Hall as [|? ? Hab Hl]; subst.
      repeat constructor; [lia|lia|exact Hl].
    + apply elem_of_cons in Hin. destruct Hin as [Heq|Hin].
      * rewrite Heq. destruct (Z.max_spec a b) as [[_ ->]|[_ ->]];
          [right; left|left].
      * right; right; exact Hin.
Qed.

Lemma fold_left_Qplus_acc (l : list Q) (a : Q) :
  (fold_left Qplus l a == a + fold_left Qplus l 0)%Q.
Proof.
  revert a. induction l as [|q l IH]; intros a; simpl; [ring|].
  rewrite (IH (a + q)%Q), (IH (0 + q)%Q). ring.
Qed.

Lemma py_sum_float_cons (q : Q) (l : list Q) :
  (py_sum_float (q :: l) == q + py_sum_float l)%Q.
Proof. unfold py_sum_float. simpl. rewrite fold_left_Qplus_acc. ring. Qed.

Lemma mapM_Ok {A B : Type} (f : A -> result B) (g : A -> B) (l : list A) :
  (forall a, f a = Ok (g a)) -> mapM f l = Ok (map g l).
Proof.
  intros Hf. induction l as [|a l IH]; [reflexivity|].
  simpl. rewrite Hf, IH. reflexivity.
Qed.

Lemma streets_per_node_size (G : Graph) :
  length (spn_vals G) = size (streets_per_node G).
Proof. unfold spn_vals. rewrite length_fmap. apply length_map_to_list. Qed.

Lemma streets_per_node_size_le (G : Graph) :
  (size (streets_per_node G) <= size (nodes G))%nat.
Proof.
  rewrite <- !(size_dom (D := gset Z)).
  apply subseteq_size, dom_omap_subseteq.
Qed.

Lemma spn_vals_nonneg (G : Graph) :
  (forall node c, streets_per_node G !! node = Some c -> 0 <= c) ->
  Forall (fun z => 0 <= z) (spn_vals G).
Proof.
  intros Hnn. apply Forall_forall. intros z Hz. unfold spn_vals in Hz.
  apply list_elem_of_fmap in Hz. destruct Hz as [[node c] [-> Hin]].
  apply elem_of_map_to_list in Hin. exact (Hnn node c Hin).
Qed.

(** C5: [streets_per_node_avg G] is the sum of the values of
    [streets_per_node G] divided by the number of nodes of [G], and raises
    [ZeroDivisionError] on a graph without nodes.  The divisor is the node
    count and not the number of entries of the mapping: with non-negative
    counts the average is at most the mean over the entries. *)
Theorem streets_per_node_avg_over_node_count (G : Graph) :
  (size (nodes G) ≠ 0%nat ->
   streets_per_node_avg G =
   Ok (inject_Z (py_sum_int (map_to_list (streets_per_node G)).*2) /
       inject_Z (Z.of_nat (size (nodes G))))%Q) ∧
  (size (nodes G) = 0%nat -> streets_per_node_avg G = Raise ZeroDivisionError) ∧
  (forall a : Q,
     streets_per_node_avg G = Ok a ->
     0 <= py_sum_int (map_to_list (streets_per_node G)).*2 ->
     size (streets_per_node G) ≠ 0%nat ->
     (a <= inject_Z (py_sum_int (map_to_list (streets_per_node G)).*2) /
           inject_Z (Z.of_nat (size (streets_per_node G))))%Q).
Proof.
  unfold streets_per_node_avg, spn_vals. split; [|split].
  - intros Hn. apply py_truediv_nonzero. lia.
  - intros Hn. rewrite Hn. reflexivity.
  - intros a Ha Hsum Hk.
    pose proof (streets_per_node_size_le G) as Hle.
    rewrite py_truediv_nonzero in Ha by lia.
    injection Ha as <-. apply Qdiv_Z_antitone; lia.
Qed.

Lemma streets_per_node_avg_over_node_count_witness :
  streets_per_node_avg half_counted = Ok (inject_Z 1 / inject_Z 2)%Q.
Proof.
  apply (proj1 (streets_per_node_avg_over_node_count half_counted)).
  vm_compute. discriminate.
Defined.

(** C3, amended: when at least one node carries a street count and the
    street counts are non-negative, the values of the histogram sum to the
    number of nodes that carry a street count, which is the number of nodes
    when the street counts cover the node set; each proportion is the value
    of the histogram at its key over the number of nodes; and the average is
    the dot product of the keys and values of the histogram over the number
    of nodes.  Every quotient here is one division of the program. *)
Theorem streets_per_node_histogram (G : Graph) :
  size (streets_per_node G) ≠ 0%nat ->
  (forall node c, streets_per_node G !! node = Some c -> 0 <= c) ->
  exists (h : list (Z * Z)) (p : list (Z * Q)) (a : Q),
    streets_per_node_counts G = Ok h ∧
    py_sum_int h.*2 = Z.of_nat (size (streets_per_node G)) ∧
    (dom (streets_per_node G) = dom (nodes G) ->
     py_sum_int h.*2 = Z.of_nat (size (nodes G))) ∧
    streets_per_node_proportions G = Ok p ∧
    p = map (fun ic : Z * Z =>
               (ic.1, (inject_Z ic.2 / inject_Z (Z.of_nat (size (nodes G))))%Q)) h ∧
    streets_per_node_avg G = Ok a ∧
    a = (inject_Z (py_sum_int (map (fun ic : Z * Z => (ic.1 * ic.2)%Z) h)) /
         inject_Z (Z.of_nat (size (nodes G))))%Q.
Proof.
  intros Hne Hnn.
  pose proof (streets_per_node_size G) as Hlen.
  pose proof (streets_per_node_size_le G) as Hle.
  pose proof (spn_vals_nonneg G Hnn) as Hpos.
  destruct (py_max_spec (spn_vals G)) as (mx & Hmx & Hub & Hin).
  { intros Hnil. rewrite Hnil in Hlen. simpl in Hlen. lia. }
  assert (Hmx0 : 0 <= mx).
  { rewrite Forall_forall in Hpos. exact (Hpos mx Hin). }
  assert (Hrange : Forall (fun z => 0 <= z < Z.of_nat (Z.to_nat (mx + 1))) (spn_vals G)).
  { rewrite Forall_forall in Hpos, Hub. apply Forall_forall. intros z Hz.
    specialize (Hpos z Hz). specialize (Hub z Hz). lia. }
  assert (Hsum : py_sum_int
                   (map (fun i => (i, py_count (spn_vals G) i)) (py_range (mx + 1))).*2 =
                 Z.of_nat (size (streets_per_node G))).
  { rewrite <- Hlen.
    pose proof (py_sum_int_histogram (fun _ => 1) (spn_vals G) _ Hrange) as Hh.
    rewrite Z2Nat.id in Hh by lia.
    assert (Hones : forall l : list Z, py_sum_int (map (fun _ => 1) l) = Z.of_nat (length l)).
    { induction l as [|z l IH]; [reflexivity|].
      simpl map. rewrite py_sum_int_cons, IH. simpl length. lia. }
    rewrite Hones in Hh. rewrite <- Hh.
    rewrite <- list_fmap_compose. apply (f_equal py_sum_int).
    apply list_fmap_ext. intros _ i _. simpl. lia. }
  eexists _, _, _. split; [|split; [|split; [|split; [|split; [|split]]]]].
  - unfold streets_per_node_counts. rewrite Hmx. reflexivity.
  - exact Hsum.
  - intros Hdom. rewrite Hsum. f_equal.
    rewrite <- !(size_dom (D := gset Z)), Hdom. reflexivity.
  - unfold streets_per_node_proportions, streets_per_node_counts. rewrite Hmx. simpl.
    apply (mapM_Ok _ (fun ic : Z * Z =>
                        (ic.1, (inject_Z ic.2 / inject_Z (Z.of_nat (size (nodes G))))%Q))).
    intros [i c]. simpl. rewrite py_truediv_nonzero by lia. reflexivity.
  - reflexivity.
  - unfold streets_per_node_avg. apply py_truediv_nonzero. lia.
  - rewrite map_map. simpl.
    pose proof (py_sum_int_histogram (fun i => i) (spn_vals G) _ Hrange) as Hh.
    rewrite Z2Nat.id in Hh by lia. rewrite Hh, map_id. reflexivity.
Qed.

Lemma streets_per_node_histogram_witness :
  exists (h : list (Z * Z)) (p : list (Z * Q)) (a : Q),
    streets_per_node_counts half_counted = Ok h ∧
    py_sum_int h.*2 = Z.of_nat (size (streets_per_node half_counted)) ∧
    (dom (streets_per_node half_counted) = dom (nodes half_counted) ->
     py_sum_int h.*2 = Z.of_nat (size (nodes half_counted))) ∧
    streets_per_node_proportions half_counted = Ok p ∧
    p = map (fun ic : Z * Z =>
               (ic.1, (inject_Z ic.2 / inject_Z (Z.of_nat (size (nodes half_counted))))%Q))
            h ∧
    streets_per_node_avg half_counted = Ok a ∧
    a = (inject_Z (py_sum_int (map (fun ic : Z * Z => (ic.1 * ic.2)%Z) h)) /
         inject_Z (Z.of_nat (size (nodes half_counted))))%Q.
Proof.
  apply (streets_per_node_histogram half_counted).
  - vm_compute. discriminate.
  - intros node c Hc.
    assert (Hall : map_Forall (fun _ c => 0 <= c) (streets_per_node half_counted)).
    { apply map_Forall_to_list. vm_compute. repeat constructor; discriminate. }
    exact (Hall node c Hc).
Defined.

(** C3 as stated fails: in [half_counted] one node of two carries a street
    count, and the values of the histogram sum to 1. *)
Lemma streets_per_node_histogram_counterexample :
  ~ (forall (G : Graph) (h : list (Z * Z)),
       streets_per_node_counts G = Ok h ->
       py_sum_int h.*2 = Z.of_nat (size (nodes G))).
Proof.
  intros H. specialize (H half_counted _ eq_refl). vm_compute in H. discriminate H.
Qed.

(** ** The undirected view and total lengths *)

Lemma same_endpoints_sym (e1 e2 : edge) :
  same_endpoints e1 e2 = same_endpoints e2 e1.
Proof.
  unfold same_endpoints.
  rewrite (Z.eqb_sym (e_u e1) (e_u e2)), (Z.eqb_sym (e_v e1) (e_v e2)),
    (Z.eqb_sym (e_u e1) (e_v e2)), (Z.eqb_sym (e_v e1) (e_u e2)).
  destruct (e_u e2 =? e_u e1), (e_v e2 =? e_v e1), (e_v e2 =? e_u e1), (e_u e2 =? e_v e1);
    reflexivity.
Qed.

Lemma Qeq_bool_sym (p q : Q) : Qeq_bool p q = Qeq_bool q p.
Proof.
  destruct (Qeq_bool q p) eqn:E.
  - apply Qeq_bool_iff. symmetry. apply Qeq_bool_iff. exact E.
  - apply not_true_is_false. intros H. apply Qeq_bool_iff in H.
    symmetry in H. apply Qeq_bool_iff in H. congruence.
Qed.

Lemma duplicate_edge_sym (e1 e2 : edge) :
  duplicate_edge e1 e2 = duplicate_edge e2 e1.
Proof.
  unfold duplicate_edge. rewrite same_endpoints_sym, Qeq_bool_sym. reflexivity.
Qed.

Lemma existsb_false {A : Type} (f : A -> bool) (l : list A) :
  existsb f l = false <-> forall a, In a l -> f a = false.
Proof.
  induction l as [|b l IH]; simpl.
  - split; [intros _ a []|reflexivity].
  - rewrite orb_false_iff, IH. split.
    + intros [Hb Hl] a [<-|Ha]; [exact Hb|exact (Hl a Ha)].
    + intros H. split; [apply H; left; reflexivity|intros a Ha; apply H; right; exact Ha].
Qed.

(** Edges without duplicates among them, none a duplicate of an edge
    already seen, are all kept. *)
Lemma drop_duplicates_none (l seen : list edge) :
  no_duplicate_edges l = true ->
  (forall e, In e l -> existsb (duplicate_edge e) seen = false) ->
  drop_duplicates seen l = l.
Proof.
  revert seen. induction l as [|e l IH]; intros seen Hnd Hseen; [reflexivity|].
  simpl in Hnd. apply andb_true_iff in Hnd. destruct Hnd as [He Hl].
  apply negb_true_iff in He. rewrite existsb_false in He.
  simpl. rewrite (Hseen e (or_introl eq_refl)). f_equal. apply IH; [exact Hl|].
  intros e' He'. simpl. apply orb_false_iff. split.
  - rewrite duplicate_edge_sym. exact (He e' He').
  - apply Hseen. right. exact He'.
Qed.

(** Edges that join pairwise different pairs of nodes have no duplicates. *)
Lemma one_way_no_duplicates (l : list edge) :
  (forall e1 e2 l1 l2 l3, l = l1 ++ e1 :: l2 ++ e2 :: l3 -> same_endpoints e1 e2 = false) ->
  no_duplicate_edges l = true.
Proof.
  induction l as [|e l IH]; intros Hone; [reflexivity|].
  simpl. apply andb_true_iff. split.
  - apply negb_true_iff, existsb_false. intros e' He'.
    apply in_split in He'. destruct He' as (l2 & l3 & ->).
    unfold duplicate_edge. rewrite (Hone e e' [] l2 l3 eq_refl). reflexivity.
  - apply IH. intros e1 e2 l1 l2 l3 ->.
    exact (Hone e1 e2 (e :: l1) l2 l3 eq_refl).
Qed.

Lemma same_endpoints_refl (e : edge) : same_endpoints e e = true.
Proof. unfold same_endpoints. rewrite !Z.eqb_refl. reflexivity. Qed.

Lemma same_endpoints_trans (e1 e2 e3 : edge) :
  same_endpoints e1 e2 = true -> same_endpoints e2 e3 = true ->
  same_endpoints e1 e3 = true.
Proof.
  unfold same_endpoints.
  rewrite !orb_true_iff, !andb_true_iff, !Z.eqb_eq. lia.
Qed.

Lemma duplicate_edge_refl (e : edge) : duplicate_edge e e = true.
Proof.
  unfold duplicate_edge. rewrite same_endpoints_refl. simpl.
  apply Qeq_bool_iff. reflexivity.
Qed.

Lemma duplicate_edge_trans (e1 e2 e3 : edge) :
  duplicate_edge e1 e2 = true -> duplicate_edge e2 e3 = true ->
  duplicate_edge e1 e3 = true.
Proof.
  unfold duplicate_edge. rewrite !andb_true_iff, !Qeq_bool_iff.
  intros [H12 Q12] [H23 Q23]. split.
  - exact (same_endpoints_trans _ _ _ H12 H23).
  - rewrite Q12. exact Q23.
Qed.

(** The two directions of a two-way street are duplicates. *)
Lemma two_way_duplicate (e1 e2 : edge) :
  e_u e2 = e_v e1 -> e_v e2 = e_u e1 -> e_length e2 == e_length e1 ->
  duplicate_edge e2 e1 = true.
Proof.
  intros Hu Hv Hl. unfold duplicate_edge, same_endpoints.
  rewrite Hu, Hv, !Z.eqb_refl, orb_true_r. simpl.
  apply Qeq_bool_iff. exact Hl.
Qed.

Lemma existsb_true {A : Type} (f : A -> bool) (l : list A) :
  existsb f l = true <-> exists a, In a l ∧ f a = true.
Proof. apply existsb_exists. Qed.

(** With non-negative lengths, dropping duplicates does not lengthen. *)
Lemma drop_duplicates_le (l seen : list edge) :
  Forall (fun e => 0 <= e_length e)%Q l ->
  (py_sum_float (map e_length (drop_duplicates seen l)) <=
   py_sum_float (map e_length l))%Q.
Proof.
  intros Hl. revert seen. induction Hl as [|e l He _ IH]; intros seen.
  - apply Qle_refl.
  - simpl drop_duplicates. simpl map. destruct (existsb (duplicate_edge e) seen).
    + rewrite py_sum_float_cons.
      apply Qle_trans with (py_sum_float (map e_length l)); [apply IH|].
      rewrite <- (Qplus_0_l (py_sum_float (map e_length l))) at 1.
      apply Qplus_le_compat; [exact He|apply Qle_refl].
    + simpl map. rewrite !py_sum_float_cons.
      apply Qplus_le_compat; [apply Qle_refl|apply IH].
Qed.

(** With non-negative lengths, an edge of positive length that duplicates
    an edge seen before it makes the undirected total strictly shorter. *)
Lemma drop_duplicates_lt (l seen : list edge) :
  Forall (fun e => 0 <= e_length e)%Q l ->
  (exists l1 e2 l3 s,
     l = l1 ++ e2 :: l3 ∧ (0 < e_length e2)%Q ∧
     In s (seen ++ l1) ∧ duplicate_edge e2 s = true) ->
  (py_sum_float (map e_length (drop_duplicates seen l)) <
   py_sum_float (map e_length l))%Q.
Proof.
  intros Hl. revert seen. induction Hl as [|e l He Hl IH]; intros seen Hdup.
  - destruct Hdup as (l1 & e2 & l3 & s & Habs & _). destruct l1; discriminate Habs.
  - destruct Hdup as (l1 & e2 & l3 & s & Heq & Hpos & Hs & Hd).
    simpl drop_duplicates. simpl map. destruct l1 as [|e0 l1].
    + simpl in Heq. injection Heq as <- <-. rewrite app_nil_r in Hs.
      assert (Hex : existsb (duplicate_edge e) seen = true).
      { apply existsb_true. exists s. split; assumption. }
      rewrite Hex, py_sum_float_cons.
      apply Qle_lt_trans with (py_sum_float (map e_length l));
        [apply drop_duplicates_le, Hl|].
      rewrite <- (Qplus_0_l (py_sum_float (map e_length l))) at 1.
      apply Qplus_lt_l. exact Hpos.
    + simpl in Heq. injection Heq as <- ->.
      destruct (existsb (duplicate_edge e) seen) eqn:Hex.
      * rewrite py_sum_float_cons.
        apply Qlt_le_trans with (py_sum_float (map e_length (l1 ++ e2 :: l3))).
        -- apply IH. apply in_app_or in Hs. destruct Hs as [Hs|[<-|Hs]].
           ++ exists l1, e2, l3, s. repeat split; try assumption.
              apply in_or_app. left. exact Hs.
           ++ apply existsb_true in Hex. destruct Hex as (s0 & Hs0 & Hd0).
              exists l1, e2, l3, s0. repeat split; try assumption.
              ** apply in_or_app. left. exact Hs0.
              ** exact (duplicate_edge_trans _ _ _ Hd Hd0).
           ++ exists l1, e2, l3, s. repeat split; try assumption.
              apply in_or_app. right. exact Hs.
        -- rewrite <- (Qplus_0_l (py_sum_float (map e_length (l1 ++ e2 :: l3)))) at 1.
           apply Qplus_le_compat; [exact He|apply Qle_refl].
      * simpl map. rewrite !py_sum_float_cons. apply Qplus_lt_r.
        apply IH. exists l1, e2, l3, s. repeat split; try assumption.
        apply in_app_or in Hs. destruct Hs as [Hs|[<-|Hs]].
        -- apply in_or_app. left. right. exact Hs.
        -- apply in_or_app. left. left. reflexivity.
        -- apply in_or_app. right. exact Hs.
Qed.

(** C6: when no two edges of [G] are duplicates of one another, parallel or
    in opposite directions, the total street length of the undirected view
    is the total edge length of [G].  With a two-way street the equality
    fails: when lengths are non-negative and [G] has two edges in opposite
    directions between the same two nodes, of the same positive length, the
    total street length of the undirected view is strictly less than the
    total edge length. *)
Theorem one_way_length_round_trip :
  (forall G : Graph,
     no_duplicate_edges (edges G) = true ->
     street_length_total (to_undirected G) = Ok (edge_length_total G)) ∧
  (forall (G : Graph) (l1 l2 l3 : list edge) (e1 e2 : edge),
     Forall (fun e => 0 <= e_length e)%Q (edges G) ->
     edges G = l1 ++ e1 :: l2 ++ e2 :: l3 ->
     e_u e2 = e_v e1 -> e_v e2 = e_u e1 ->
     e_length e2 == e_length e1 -> (0 < e_length e2)%Q ->
     exists s : Q,
       street_length_total (to_undirected G) = Ok s ∧ (s < edge_length_total G)%Q).
Proof.
  split.
  - intros G Hnd. unfold street_length_total, edge_length_total, to_undirected. simpl.
    rewrite drop_duplicates_none; [reflexivity|exact Hnd|].
    intros e _. reflexivity.
  - intros G l1 l2 l3 e1 e2 Hnn Heq Hu Hv Hlen Hpos.
    unfold street_length_total, edge_length_total, to_undirected. simpl.
    eexists. split; [reflexivity|].
    apply drop_duplicates_lt; [exact Hnn|].
    exists (l1 ++ e1 :: l2), e2, l3, e1. split; [|split; [|split]].
    + rewrite Heq, <- app_assoc. reflexivity.
    + exact Hpos.
    + simpl. apply in_or_app. right. left. reflexivity.
    + exact (two_way_duplicate e1 e2 Hu Hv Hlen).
Qed.

Lemma one_way_length_round_trip_witness :
  street_length_total (to_undirected one_way_square) =
    Ok (edge_length_total one_way_square) ∧
  exists s : Q,
    street_length_total (to_undirected square) = Ok s ∧ (s < edge_length_total square)%Q.
Proof.
  split.
  - apply (proj1 one_way_length_round_trip one_way_square). reflexivity.
  - apply (proj2 one_way_length_round_trip square
             [] [] [mk_edge 2 3 100; mk_edge 3 2 100; mk_edge 3 4 100; mk_edge 4 3 100;
                    mk_edge 4 1 100; mk_edge 1 4 100]
             (mk_edge 1 2 100) (mk_edge 2 1 100)).
    + vm_compute. repeat constructor; discriminate.
    + reflexivity.
    + reflexivity.
    + reflexivity.
    + reflexivity.
    + reflexivity.
Defined.

(** ** Circuity *)

(** C1: [circuity_avg] has no path to its [None] result, because the
    division by a NumPy scalar never raises [ZeroDivisionError].  When the
    straight-line distances sum to zero, a lone self-loop of 50 m gives
    [inf], and an undirected graph without edges raises [IndexError]. *)
Theorem circuity_avg_zero_distance :
  circuity_avg planar_crs axis_dist_vec axis_dist_vec self_loop = Ok (Some PInf) ∧
  circuity_avg planar_crs axis_dist_vec axis_dist_vec edgeless = Raise IndexError ∧
  (forall (is_projected : string -> bool)
          (euclidean_dist_vec great_circle_vec :
             list Q -> list Q -> list Q -> list Q -> list float64)
          (Gu : Graph),
     circuity_avg is_projected euclidean_dist_vec great_circle_vec Gu ≠ Ok None).
Proof.
  split; [reflexivity|]. split; [reflexivity|].
  intros is_projected euclid gc Gu. unfold circuity_avg.
  destruct (is_directed Gu); [discriminate|].
  destruct (mapM _ (edges Gu)) as [[|c coords]|e]; simpl; discriminate.
Qed.

(** ** The report of [basic_stats] *)

Lemma bind_Ok_inv {A B : Type} (r : result A) (k : A -> result B) (b : B) :
  r ≫= k = Ok b -> exists a, r = Ok a ∧ k a = Ok b.
Proof. destruct r as [a|e]; [intros H; exists a; split; [reflexivity|exact H]|discriminate]. Qed.

Ltac bind_inv H :=
  repeat (cbv beta zeta in H;
          match type of H with
          | _ ≫= _ = Ok _ =>
              let a := fresh "a" in
              let Ha := fresh "Ha" in
              apply bind_Ok_inv in H as (a & Ha & H)
          end).

Ltac lookup_report :=
  repeat (rewrite lookup_insert_ne by discriminate);
  first [apply lookup_insert_eq | apply lookup_empty].

Ltac eval_lookups :=
  repeat (rewrite lookup_insert_ne by discriminate);
  rewrite ?lookup_insert_eq, ?lookup_empty.

Ltac key_iff :=
  eval_lookups; unfold is_Some; split; intros;
  repeat match goal with
         | H : _ ∧ _ |- _ => destruct H
         | H : ex _ |- _ => destruct H
         | |- _ ∧ _ => split
         end;
  solve [congruence | eauto].

Section BasicStats.

Variable is_projected : string -> bool.
Variable euclidean_dist_vec : list Q -> list Q -> list Q -> list Q -> list float64.
Variable great_circle_vec : list Q -> list Q -> list Q -> list Q -> list float64.
Variable consolidate_intersections : Graph -> Q -> bool -> bool -> list (Q * Q).
Variable get_undirected : Graph -> Graph.

Local Abbreviation stats_of :=
  (basic_stats is_projected euclidean_dist_vec great_circle_vec
               consolidate_intersections get_undirected).

(** C9: in a report of [basic_stats], [n] is the node count and [m] the
    edge count of the input graph, and [k_avg] is [2 * m / n]. *)
Theorem basic_stats_k_avg (G : Graph) (area clean_int_tol : option Q)
    (stats : gmap string value) :
  stats_of G area clean_int_tol = Ok stats ->
  exists (n m : Z) (k : Q),
    stats !! "n" = Some (VInt n) ∧ n = Z.of_nat (size (nodes G)) ∧
    stats !! "m" = Some (VInt m) ∧ m = Z.of_nat (length (edges G)) ∧
    stats !! "k_avg" = Some (VFloat k) ∧
    n ≠ 0 ∧ k == 2 * inject_Z m / inject_Z n.
Proof.
  intros H. unfold basic_stats in H. bind_inv H.
  assert (Hk : Z.of_nat (size (nodes G)) ≠ 0 ∧
               a == 2 * inject_Z (Z.of_nat (length (edges G))) /
                    inject_Z (Z.of_nat (size (nodes G)))).
  { unfold py_truediv in Ha. destruct (Qeq_bool _ 0) eqn:E; [discriminate|].
    injection Ha as <-. split.
    - intros Hz. rewrite Hz in E. discriminate E.
    - rewrite inject_Z_mult. reflexivity. }
  destruct Hk as [Hn Hk].
  exists (Z.of_nat (size (nodes G))), (Z.of_nat (length (edges G))), a.
  destruct area as [ar|]; destruct clean_int_tol as [tol|];
    try destruct (py_bool tol); bind_inv H; injection H as <-;
    (split; [lookup_report|]; split; [reflexivity|];
     split; [lookup_report|]; split; [reflexivity|];
     split; [lookup_report|]; split; [exact Hn|exact Hk]).
Qed.

(** X11: the optional keys of a report: the density keys are present exactly
    when [area] is given, the clean intersection count exactly when
    [clean_int_tol] is given and is not zero, and the clean intersection
    density exactly when both hold. *)
Lemma basic_stats_optional_keys (G : Graph) (area clean_int_tol : option Q)
    (stats : gmap string value) :
  stats_of G area clean_int_tol = Ok stats ->
  let requested := exists tol, clean_int_tol = Some tol ∧ py_bool tol = true in
  (is_Some (stats !! "node_density_km") <-> is_Some area) ∧
  (is_Some (stats !! "intersection_density_km") <-> is_Some area) ∧
  (is_Some (stats !! "edge_density_km") <-> is_Some area) ∧
  (is_Some (stats !! "street_density_km") <-> is_Some area) ∧
  (is_Some (stats !! "clean_intersection_count") <-> requested) ∧
  (is_Some (stats !! "clean_intersection_density_km") <-> is_Some area ∧ requested).
Proof.
  intros H. unfold basic_stats in H. bind_inv H.
  destruct area as [ar|]; destruct clean_int_tol as [tol|];
    try destruct (py_bool tol) eqn:Hb; bind_inv H; injection H as <-;
    cbv zeta;
    (split; [|split; [|split; [|split; [|split]]]]); key_iff.
Qed.

End BasicStats.

Lemma basic_stats_k_avg_witness :
  exists stats : gmap string value,
    basic_stats planar_crs axis_dist_vec axis_dist_vec no_merge to_undirected
                square None None = Ok stats ∧
    exists (n m : Z) (k : Q),
      stats !! "n" = Some (VInt n) ∧ n = Z.of_nat (size (nodes square)) ∧
      stats !! "m" = Some (VInt m) ∧ m = Z.of_nat (length (edges square)) ∧
      stats !! "k_avg" = Some (VFloat k) ∧
      n ≠ 0 ∧ k == 2 * inject_Z m / inject_Z n.
Proof.
  match goal with
  | |- exists stats, ?r = Ok stats ∧ _ => destruct r as [stats|e] eqn:E
  end.
  - exists stats. split; [reflexivity|].
    exact (basic_stats_k_avg planar_crs axis_dist_vec axis_dist_vec no_merge to_undirected
             square None None stats E).
  - exfalso.
    assert (Hok : is_Ok (basic_stats planar_crs axis_dist_vec axis_dist_vec no_merge
                           to_undirected square None None) = true)
      by (vm_compute; reflexivity).
    rewrite E in Hok. discriminate Hok.
Defined.

(** C2: with a clean-intersection tolerance of zero, which is supplied and
    not [None], the report of the square block over 2 square kilometres has
    the density keys but neither [clean_intersection_count] nor
    [clean_intersection_density_km]. *)
Theorem basic_stats_zero_tolerance :
  exists stats : gmap string value,
    basic_stats planar_crs axis_dist_vec axis_dist_vec no_merge to_undirected
                square (Some (inject_Z 2000000)) (Some 0%Q) = Ok stats ∧
    stats !! "clean_intersection_count" = None ∧
    stats !! "clean_intersection_density_km" = None ∧
    stats !! "node_density_km" = Some (VFloat (4000000 # 2000000)).
Proof.
  match goal with
  | |- exists stats, ?r = Ok stats ∧ _ => destruct r as [stats|e] eqn:E
  end.
  - exists stats. split; [reflexivity|].
    split; [|split].
    + assert (Hk : (basic_stats planar_crs axis_dist_vec axis_dist_vec no_merge
                                to_undirected square (Some (inject_Z 2000000)) (Some 0%Q)
                    ≫= fun report => Ok (report !! "clean_intersection_count")) = Ok None)
        by (vm_compute; reflexivity).
      rewrite E in Hk. injection Hk as Hk. exact Hk.
    + assert (Hk : (basic_stats planar_crs axis_dist_vec axis_dist_vec no_merge
                                to_undirected square (Some (inject_Z 2000000)) (Some 0%Q)
                    ≫= fun report => Ok (report !! "clean_intersection_density_km"))
                   = Ok None)
        by (vm_compute; reflexivity).
      rewrite E in Hk. injection Hk as Hk. exact Hk.
    + assert (Hk : (basic_stats planar_crs axis_dist_vec axis_dist_vec no_merge
                                to_undirected square (Some (inject_Z 2000000)) (Some 0%Q)
                    ≫= fun report => Ok (report !! "node_density_km"))
                   = Ok (Some (VFloat (4000000 # 2000000))))
        by (vm_compute; reflexivity).
      rewrite E in Hk. injection Hk as Hk. exact Hk.
  - exfalso.
    assert (Hok : is_Ok (basic_stats planar_crs axis_dist_vec axis_dist_vec no_merge
                           to_undirected square (Some (inject_Z 2000000)) (Some 0%Q))
                  = true)
      by (vm_compute; reflexivity).
    rewrite E in Hok. discriminate Hok.
Qed.

(** * Further properties *)

(** ** The per-node mapping and its warning *)

(** X1: the mapping of [streets_per_node] has an entry for a node exactly when
    the node is in the graph and carries a street count, with that count;
    the warning is logged exactly when some node carries no street count. *)
Theorem streets_per_node_entries (G : Graph) :
  (forall node c,
     streets_per_node G !! node = Some c <->
     exists d, nodes G !! node = Some d ∧ street_count d = Some c) ∧
  (streets_per_node_warns G = true <->
   exists node d, nodes G !! node = Some d ∧ street_count d = None).
Proof.
  split.
  - intros node c. unfold streets_per_node. rewrite lookup_omap_Some.
    split; intros (d & H1 & H2); exists d; split; assumption.
  - unfold streets_per_node_warns. rewrite bool_decide_eq_true. split.
    + intros Hne.
      destruct (decide (map_Forall (fun _ d => is_Some (street_count d)) (nodes G)))
        as [Hall|Hex].
      * exfalso. apply Hne. apply set_eq. intros node.
        rewrite !elem_of_dom. unfold streets_per_node. split.
        -- intros [c Hc]. apply lookup_omap_Some in Hc. destruct Hc as (d & _ & Hd).
           exists d. exact Hd.
        -- intros [d Hd]. destruct (Hall node d Hd) as [c Hc].
           exists c. apply lookup_omap_Some. exists d. split; assumption.
      * apply map_not_Forall in Hex; [|apply _]. destruct Hex as (node & d & Hd & Hnone).
        exists node, d. split; [exact Hd|].
        destruct (street_count d) as [c|]; [|reflexivity].
        exfalso. apply Hnone. exists c. reflexivity.
    + intros (node & d & Hd & Hnone) Heq.
      assert (Hin : node ∈ dom (streets_per_node G)).
      { rewrite Heq. apply elem_of_dom. exists d. exact Hd. }
      apply elem_of_dom in Hin. destruct Hin as [c Hc].
      unfold streets_per_node in Hc. apply lookup_omap_Some in Hc.
      destruct Hc as (d' & Hsc & Hd'). congruence.
Qed.

Lemma streets_per_node_entries_witness :
  streets_per_node_warns half_counted = true.
Proof.
  apply (proj2 (streets_per_node_entries half_counted)).
  exists 2, (mk_node 0 100 None). split; [vm_compute; reflexivity|reflexivity].
Defined.

Lemma spn_vals_nil (G : Graph) : spn_vals G = [] <-> streets_per_node G = ∅.
Proof.
  unfold spn_vals. rewrite <- map_to_list_empty_iff. split.
  - intros H. apply fmap_nil_inv in H. exact H.
  - intros ->. reflexivity.
Qed.

(** X2: the histogram and the proportions raise [ValueError] when no node
    carries a street count (an empty graph among them), and the histogram
    is returned in every other case. *)
Theorem streets_per_node_counts_defined (G : Graph) :
  (streets_per_node G = ∅ ->
   streets_per_node_counts G = Raise ValueError ∧
   streets_per_node_proportions G = Raise ValueError) ∧
  (streets_per_node G ≠ ∅ -> exists h, streets_per_node_counts G = Ok h).
Proof.
  split.
  - intros He. apply spn_vals_nil in He.
    unfold streets_per_node_proportions, streets_per_node_counts. rewrite He. split; reflexivity.
  - intros Hne. unfold streets_per_node_counts.
    destruct (spn_vals G) as [|z l] eqn:E.
    + exfalso. apply Hne, spn_vals_nil, E.
    + eexists. reflexivity.
Qed.

Lemma streets_per_node_counts_defined_witness :
  (streets_per_node_counts
     {| is_directed := true; crs := "epsg:4326"; nodes := ∅; edges := [] |} = Raise ValueError ∧
   streets_per_node_proportions
     {| is_directed := true; crs := "epsg:4326"; nodes := ∅; edges := [] |} = Raise ValueError) ∧
  exists h, streets_per_node_counts half_counted = Ok h.
Proof.
  split.
  - apply (proj1 (streets_per_node_counts_defined _)). reflexivity.
  - apply (proj2 (streets_per_node_counts_defined half_counted)).
    intros H. apply (f_equal size) in H. vm_compute in H. discriminate H.
Defined.

(** ** Bounds on the intersection count *)

(** X6: the intersection count lies between 0 and the number of nodes that
    carry a street count, hence is at most the number of nodes. *)
Theorem intersection_count_bounds (G : Graph) (min_streets : Z) :
  0 <= intersection_count G min_streets <= Z.of_nat (size (streets_per_node G)) ∧
  intersection_count G min_streets <= Z.of_nat (size (nodes G)).
Proof.
  unfold intersection_count, intersection_sum.
  match goal with |- context [py_sum_bool ?l] => pose proof (py_sum_bool_bounds l) as Hb end.
  rewrite length_map, length_map_to_list in Hb.
  pose proof (streets_per_node_size_le G). split; lia.
Qed.

(** ** Extremes of the self-loop proportion *)

Lemma py_sum_bool_zero {A : Type} (f : A -> bool) (l : list A) :
  py_sum_bool (map f l) = 0 <-> forall a, In a l -> f a = false.
Proof.
  induction l as [|a l IH].
  - split; [intros _ b []|reflexivity].
  - simpl map. rewrite py_sum_bool_cons.
    pose proof (py_sum_bool_bounds (map f l)) as Hb. split.
    + intros H b [<-|Hin].
      * destruct (f a); [lia|reflexivity].
      * apply IH; [destruct (f a); lia|exact Hin].
    + intros H. rewrite (H a (or_introl eq_refl)).
      apply IH. intros b Hb'. apply H. right. exact Hb'.
Qed.

Lemma py_sum_bool_full {A : Type} (f : A -> bool) (l : list A) :
  py_sum_bool (map f l) = Z.of_nat (length l) <-> forall a, In a l -> f a = true.
Proof.
  induction l as [|a l IH].
  - split; [intros _ b []|reflexivity].
  - simpl map. rewrite py_sum_bool_cons.
    pose proof (py_sum_bool_bounds (map f l)) as Hb. rewrite length_map in Hb.
    simpl length. split.
    + intros H b [<-|Hin].
      * destruct (f a); [reflexivity|lia].
      * apply IH; [destruct (f a); lia|exact Hin].
    + intros H. rewrite (H a (or_introl eq_refl)).
      assert (Hl : py_sum_bool (map f l) = Z.of_nat (length l)).
      { apply IH. intros b Hb'. apply H. right. exact Hb'. }
      lia.
Qed.

(** X8: on an undirected graph with edges, the self-loop proportion is 0
    exactly when no edge is a self-loop and 1 exactly when every edge is. *)
Theorem self_loop_proportion_extremes (Gu : Graph) (p : Q) :
  self_loop_proportion Gu = Ok p ->
  (p == 0 <-> forall e, In e (edges Gu) -> e_u e ≠ e_v e) ∧
  (p == 1 <-> forall e, In e (edges Gu) -> e_u e = e_v e).
Proof.
  unfold self_loop_proportion. destruct (is_directed Gu); [discriminate|].
  unfold py_truediv. destruct (Qeq_bool _ 0) eqn:E; [discriminate|].
  intros H. injection H as <-.
  assert (Hn : Z.of_nat (length (edges Gu)) ≠ 0).
  { intros Hz. rewrite Hz in E. discriminate E. }
  set (s := py_sum_bool (map (fun e => e_u e =? e_v e) (edges Gu))).
  assert (Hq : forall a b : Z, b ≠ 0 -> forall c : Z,
               (inject_Z a / inject_Z b == inject_Z c)%Q <-> a = c * b).
  { intros a b Hb c. unfold Qeq, Qdiv, Qmult, Qinv. simpl.
    destruct b as [|b|b]; [contradiction| |]; simpl; split; nia. }
  split.
  - change 0%Q with (inject_Z 0). rewrite (Hq s _ Hn 0).
    replace (0 * Z.of_nat (length (edges Gu))) with 0 by lia.
    unfold s. rewrite py_sum_bool_zero. split; intros H e He.
    + apply Z.eqb_neq, H, He.
    + apply Z.eqb_neq, H, He.
  - change 1%Q with (inject_Z 1). rewrite (Hq s _ Hn 1).
    replace (1 * Z.of_nat (length (edges Gu))) with (Z.of_nat (length (edges Gu))) by lia.
    unfold s. rewrite py_sum_bool_full. split; intros H e He.
    + apply Z.eqb_eq, H, He.
    + apply Z.eqb_eq, H, He.
Qed.

Lemma self_loop_proportion_extremes_witness :
  ((inject_Z 1 / inject_Z 1 == 0)%Q <-> forall e, In e (edges self_loop) -> e_u e ≠ e_v e) ∧
  ((inject_Z 1 / inject_Z 1 == 1)%Q <-> forall e, In e (edges self_loop) -> e_u e = e_v e).
Proof. apply (self_loop_proportion_extremes self_loop). reflexivity. Defined.

(** ** The shape of the histogram *)

Lemma spn_vals_lookup (G : Graph) (c : Z) :
  c ∈ spn_vals G <-> exists node, streets_per_node G !! node = Some c.
Proof.
  unfold spn_vals. rewrite list_elem_of_fmap. split.
  - intros [[node c'] [-> Hin]]. exists node. apply elem_of_map_to_list. exact Hin.
  - intros [node Hc]. exists (node, c). split; [reflexivity|].
    apply elem_of_map_to_list. exact Hc.
Qed.

Lemma length_filter_map {A B : Type} (f : B -> bool) (g : A -> B) (l : list A) :
  length (List.filter f (map g l)) = length (List.filter (fun a => f (g a)) l).
Proof.
  induction l as [|a l IH]; [reflexivity|].
  simpl. destruct (f (g a)); simpl; rewrite IH; reflexivity.
Qed.

(** X3: the keys of the histogram are 0, 1, ... up to the largest street count
    of the graph, in this order, and the value at a key is the number of
    nodes with this street count: counts that no node has are filled with
    0. *)
Theorem streets_per_node_counts_keys (G : Graph) (h : list (Z * Z)) :
  streets_per_node_counts G = Ok h ->
  exists mx : Z,
    (exists node, streets_per_node G !! node = Some mx) ∧
    (forall node c, streets_per_node G !! node = Some c -> c <= mx) ∧
    h.*1 = py_range (mx + 1) ∧
    (forall i c, (i, c) ∈ h ->
       c = Z.of_nat (length (List.filter (fun nc : Z * Z => i =? nc.2)
                                         (map_to_list (streets_per_node G))))).
Proof.
  unfold streets_per_node_counts. intros H.
  destruct (py_max_spec (spn_vals G)) as (mx & Hmx & Hub & Hin).
  { intros Hnil. rewrite Hnil in H. discriminate H. }
  rewrite Hmx in H. injection H as <-. exists mx. split; [|split; [|split]].
  - apply spn_vals_lookup. exact Hin.
  - intros node c Hc. rewrite Forall_forall in Hub. apply Hub.
    apply spn_vals_lookup. exists node. exact Hc.
  - change (map (fun i => (i, py_count (spn_vals G) i)) (py_range (mx + 1)))
      with ((fun i => (i, py_count (spn_vals G) i)) <$> py_range (mx + 1)).
    rewrite <- list_fmap_compose. apply list_fmap_id.
  - intros i c Hic. apply list_elem_of_In, in_map_iff in Hic.
    destruct Hic as (j & Heq & _). injection Heq as -> <-.
    unfold py_count, spn_vals. f_equal.
    change ((map_to_list (streets_per_node G)).*2)
      with (map snd (map_to_list (streets_per_node G))).
    apply length_filter_map.
Qed.

Lemma streets_per_node_counts_keys_witness :
  exists mx : Z,
    (exists node, streets_per_node square !! node = Some mx) ∧
    (forall node c, streets_per_node square !! node = Some c -> c <= mx) ∧
    [(0, 0); (1, 0); (2, 4)].*1 = py_range (mx + 1) ∧
    (forall i c, (i, c) ∈ [(0, 0); (1, 0); (2, 4)] ->
       c = Z.of_nat (length (List.filter (fun nc : Z * Z => i =? nc.2)
                                         (map_to_list (streets_per_node square))))).
Proof. apply (streets_per_node_counts_keys square). vm_compute. reflexivity. Defined.

(** The street counts of a graph that has some, all non-negative, lie in
    the range of the histogram. *)
Lemma spn_vals_range (G : Graph) :
  streets_per_node G ≠ ∅ ->
  (forall node c, streets_per_node G !! node = Some c -> 0 <= c) ->
  exists mx : Z,
    py_max (spn_vals G) = Some mx ∧ 0 <= mx ∧
    Forall (fun z => 0 <= z < Z.of_nat (Z.to_nat (mx + 1))) (spn_vals G).
Proof.
  intros Hne Hnn.
  pose proof (spn_vals_nonneg G Hnn) as Hpos.
  destruct (py_max_spec (spn_vals G)) as (mx & Hmx & Hub & Hin).
  { intros Hnil. apply Hne, spn_vals_nil, Hnil. }
  exists mx. rewrite Forall_forall in Hpos, Hub.
  split; [exact Hmx|]. split; [exact (Hpos mx Hin)|].
  apply Forall_forall. intros z Hz.
  pose proof (Hpos z Hz). pose proof (Hub z Hz). pose proof (Hpos mx Hin). lia.
Qed.



(** ** The proportions sum to one *)




(** ** Intersections from the histogram *)

Lemma py_sum_int_filter_keys (f : Z -> bool) (g : Z -> Z) (r : list Z) :
  py_sum_int (map snd (List.filter (fun ic : Z * Z => f ic.1) (map (fun i => (i, g i)) r))) =
  py_sum_int (map (fun i => (if f i then 1 else 0) * g i) r).
Proof.
  induction r as [|i r IH]; [reflexivity|].
  simpl. destruct (f i); simpl; rewrite !py_sum_int_cons, IH; lia.
Qed.

Lemma streets_per_node_in_graph (G : Graph) (nc : Z * Z) :
  In nc (map_to_list (streets_per_node G)) -> nc.1 ∈ dom (nodes G).
Proof.
  destruct nc as [node c]. intros Hin. apply list_elem_of_In, elem_of_map_to_list in Hin.
  unfold streets_per_node in Hin. apply lookup_omap_Some in Hin.
  destruct Hin as (d & _ & Hd). apply elem_of_dom. exists d. exact Hd.
Qed.

(** X7: with non-negative street counts, the intersection count for a
    threshold is the sum of the histogram values at the keys that reach the
    threshold. *)
Theorem intersection_count_from_histogram (G : Graph) (min_streets : Z) (h : list (Z * Z)) :
  (forall node c, streets_per_node G !! node = Some c -> 0 <= c) ->
  streets_per_node_counts G = Ok h ->
  intersection_count G min_streets =
  py_sum_int (List.filter (fun ic : Z * Z => min_streets <=? ic.1) h).*2.
Proof.
  intros Hnn Hh.
  assert (Hne : streets_per_node G ≠ ∅).
  { intros He. apply spn_vals_nil in He. unfold streets_per_node_counts in Hh.
    rewrite He in Hh. discriminate Hh. }
  destruct (spn_vals_range G Hne Hnn) as (mx & Hmx & Hmx0 & Hrange).
  unfold streets_per_node_counts in Hh. rewrite Hmx in Hh. injection Hh as <-.
  etransitivity;
    [|symmetry;
      exact (py_sum_int_filter_keys (Z.leb min_streets) (py_count (spn_vals G)) _)].
  pose proof (py_sum_int_histogram (fun z => if min_streets <=? z then 1 else 0)
                (spn_vals G) _ Hrange) as Hhist.
  rewrite Z2Nat.id in Hhist by lia. rewrite Hhist.
  unfold intersection_count, intersection_sum, py_sum_bool, spn_vals.
  change ((map_to_list (streets_per_node G)).*2)
    with (map snd (map_to_list (streets_per_node G))).
  rewrite !map_map. f_equal. apply map_ext_in. intros nc Hin.
  rewrite (bool_decide_eq_true_2 _ (streets_per_node_in_graph G nc Hin)), andb_true_r.
  reflexivity.
Qed.

Lemma intersection_count_from_histogram_witness :
  intersection_count square 2 =
  py_sum_int (List.filter (fun ic : Z * Z => 2 <=? ic.1) [(0, 0); (1, 0); (2, 4)]).*2.
Proof.
  apply (intersection_count_from_histogram square 2).
  - intros node c Hc.
    assert (Hall : map_Forall (fun _ c => 0 <= c) (streets_per_node square)).
    { apply map_Forall_to_list. vm_compute. repeat constructor; discriminate. }
    exact (Hall node c Hc).
  - vm_compute. reflexivity.
Defined.

(** ** Bounds on the average *)

Lemma py_sum_int_bounds (l : list Z) (mx : Z) :
  Forall (fun z => 0 <= z <= mx) l ->
  0 <= py_sum_int l <= mx * Z.of_nat (length l).
Proof.
  induction 1 as [|z l Hz _ IH]; [unfold py_sum_int; simpl; lia|].
  rewrite py_sum_int_cons. simpl length. lia.
Qed.

(** X5: when every street count lies between 0 and [mx], so does the average
    of a graph with nodes. *)
Theorem streets_per_node_avg_bounds (G : Graph) (mx : Z) :
  size (nodes G) ≠ 0%nat ->
  (forall node c, streets_per_node G !! node = Some c -> 0 <= c <= mx) ->
  0 <= mx ->
  exists a : Q, streets_per_node_avg G = Ok a ∧ (0 <= a <= inject_Z mx)%Q.
Proof.
  intros Hn Hb Hmx. unfold streets_per_node_avg.
  rewrite py_truediv_nonzero by lia. eexists; split; [reflexivity|].
  assert (Hall : Forall (fun z => 0 <= z <= mx) (spn_vals G)).
  { apply Forall_forall. intros z Hz. apply spn_vals_lookup in Hz.
    destruct Hz as [node Hc]. exact (Hb node z Hc). }
  pose proof (py_sum_int_bounds _ _ Hall) as Hs.
  rewrite streets_per_node_size in Hs.
  pose proof (streets_per_node_size_le G) as Hle.
  assert (Hpos : (0 < inject_Z (Z.of_nat (size (nodes G))))%Q)
    by (unfold Qlt; simpl; lia).
  split.
  - apply Qle_shift_div_l; [exact Hpos|]. unfold Qle; simpl. lia.
  - apply Qle_shift_div_r; [exact Hpos|]. unfold Qle; simpl. nia.
Qed.

Lemma streets_per_node_avg_bounds_witness :
  exists a : Q, streets_per_node_avg half_counted = Ok a ∧ (0 <= a <= inject_Z 1)%Q.
Proof.
  apply (streets_per_node_avg_bounds half_counted 1).
  - vm_compute. discriminate.
  - intros node c Hc.
    assert (Hall : map_Forall (fun _ c => 0 <= c <= 1) (streets_per_node half_counted)).
    { apply map_Forall_to_list. vm_compute. repeat constructor; discriminate. }
    exact (Hall node c Hc).
  - lia.
Defined.

(** ** The circuity ratio *)

Lemma fold_np_add_finite (l : list float64) (a : Q) :
  Forall (fun d => is_inf d = false) l ->
  exists q : Q,
    fold_left np_add (List.filter (fun d => negb (np_isnan d)) l) (Fin a) = Fin q ∧
    q == a + py_sum_float (omap finite_part l).
Proof.
  intros Hl. revert a. induction Hl as [|d l Hd _ IH]; intros a.
  - exists a. split; [reflexivity|]. unfold py_sum_float. simpl. ring.
  - destruct d as [p| | |]; try discriminate Hd.
    + destruct (IH (a + p)%Q) as (q & Hq & Heq). exists q. split; [exact Hq|].
      change (omap finite_part (Fin p :: l)) with (p :: omap finite_part l).
      rewrite py_sum_float_cons, Heq. ring.
    + destruct (IH a) as (q & Hq & Heq). exists q. split; [exact Hq|exact Heq].
Qed.

(** [circuity_avg] past its checks: the ratio over the straight-line
    distances of the rows. *)
Lemma circuity_avg_unfold
    (is_projected : string -> bool)
    (euclidean_dist_vec great_circle_vec : list Q -> list Q -> list Q -> list Q -> list float64)
    (Gu : Graph) (coords : list (Q * Q * Q * Q)) :
  is_directed Gu = false ->
  edge_coords Gu = Ok coords ->
  coords ≠ [] ->
  circuity_avg is_projected euclidean_dist_vec great_circle_vec Gu =
  try_except
    (Some <$> np_rtruediv (edge_length_total Gu)
                (np_sum (List.filter (fun d => negb (np_isnan d))
                           (sl_dists is_projected euclidean_dist_vec great_circle_vec
                                     Gu coords))))
    ZeroDivisionError (Ok None).
Proof.
  intros Hdir Hc Hne. unfold circuity_avg. rewrite Hdir.
  change (mapM _ (edges Gu)) with (edge_coords Gu). rewrite Hc.
  destruct coords as [|c coords]; [contradiction|reflexivity].
Qed.

(** X9: on an undirected graph with edges, when the distance function in use
    gives each edge a finite distance or [nan] and the finite ones do not
    sum to zero, [circuity_avg] is the total edge length over the sum of the
    finite distances: an edge with a [nan] distance is left out of the
    divisor and kept in the total length. *)
Theorem circuity_avg_ratio
    (is_projected : string -> bool)
    (euclidean_dist_vec great_circle_vec : list Q -> list Q -> list Q -> list Q -> list float64)
    (Gu : Graph) (coords : list (Q * Q * Q * Q)) :
  is_directed Gu = false ->
  edge_coords Gu = Ok coords ->
  coords ≠ [] ->
  Forall (fun d => is_inf d = false)
         (sl_dists is_projected euclidean_dist_vec great_circle_vec Gu coords) ->
  ~ py_sum_float
      (omap finite_part (sl_dists is_projected euclidean_dist_vec great_circle_vec Gu coords))
    == 0 ->
  exists r : Q,
    circuity_avg is_projected euclidean_dist_vec great_circle_vec Gu = Ok (Some (Fin r)) ∧
    r == edge_length_total Gu /
         py_sum_float
           (omap finite_part
                 (sl_dists is_projected euclidean_dist_vec great_circle_vec Gu coords)).
Proof.
  intros Hdir Hc Hne Hfin Hnz.
  destruct (fold_np_add_finite _ 0 Hfin) as (q & Hq & Heq).
  rewrite Qplus_0_l in Heq.
  assert (Hqb : Qeq_bool q 0 = false).
  { apply not_true_is_false. intros Ht. apply Qeq_bool_iff in Ht.
    apply Hnz. rewrite <- Heq. exact Ht. }
  exists (edge_length_total Gu / q)%Q. split.
  - rewrite (circuity_avg_unfold _ _ _ Gu coords Hdir Hc Hne).
    unfold np_sum. rewrite Hq. unfold np_rtruediv. rewrite Hqb. reflexivity.
  - rewrite Heq. reflexivity.
Qed.

Lemma circuity_avg_ratio_witness :
  exists r : Q,
    circuity_avg planar_crs axis_dist_vec axis_dist_vec (to_undirected square) =
      Ok (Some (Fin r)) ∧
    r == edge_length_total (to_undirected square) /
         py_sum_float
           (omap finite_part
                 (sl_dists planar_crs axis_dist_vec axis_dist_vec (to_undirected square)
                    [(0, 0, 0, 100); (0, 100, 100, 100);
                     (100, 100, 100, 0); (100, 0, 0, 0)]%Q)).
Proof.
  apply (circuity_avg_ratio planar_crs axis_dist_vec axis_dist_vec (to_undirected square)).
  - reflexivity.
  - vm_compute. reflexivity.
  - discriminate.
  - vm_compute. repeat constructor.
  - vm_compute. discriminate.
Defined.

(** ** More on the report of [basic_stats] *)

Lemma py_truediv_Ok (a b q : Q) :
  py_truediv a b = Ok q -> ~ b == 0 ∧ q = (a / b)%Q.
Proof.
  unfold py_truediv. destruct (Qeq_bool b 0) eqn:E; [discriminate|].
  intros H. injection H as <-. split; [|reflexivity].
  intros Hb. apply Qeq_bool_iff in Hb. congruence.
Qed.

Ltac in_keys := simpl; repeat (first [left; reflexivity | right]).

Ltac key_cases H :=
  repeat (apply lookup_insert_is_Some in H; destruct H as [<-|[_ H]]; [in_keys|]);
  exfalso; exact (lookup_empty_is_Some _ H).

Section BasicStatsReport.

Variable is_projected : string -> bool.
Variable euclidean_dist_vec : list Q -> list Q -> list Q -> list Q -> list float64.
Variable great_circle_vec : list Q -> list Q -> list Q -> list Q -> list float64.
Variable consolidate_intersections : Graph -> Q -> bool -> bool -> list (Q * Q).
Variable get_undirected : Graph -> Graph.

Local Abbreviation report_of :=
  (basic_stats is_projected euclidean_dist_vec great_circle_vec
               consolidate_intersections get_undirected).

(** X10: [basic_stats] returns no report for a graph without nodes, for a
    graph without edges, for an area of zero, and when the undirected view
    it is given is directed.  Which exception comes out is left open: the
    source obtains the undirected view first, and that call may raise
    before any of the divisions does. *)
Theorem basic_stats_no_report (G : Graph) (area clean_int_tol : option Q) :
  (size (nodes G) = 0%nat ->
   forall stats, report_of G area clean_int_tol ≠ Ok stats) ∧
  (edges G = [] ->
   forall stats, report_of G area clean_int_tol ≠ Ok stats) ∧
  (forall a stats, a == 0 -> report_of G (Some a) clean_int_tol ≠ Ok stats) ∧
  (is_directed (get_undirected G) = true ->
   forall stats, report_of G area clean_int_tol ≠ Ok stats).
Proof.
  split; [|split; [|split]].
  - intros Hn stats H. unfold basic_stats in H. bind_inv H.
    match goal with
    | Hd : py_truediv (inject_Z (2 * _)) _ = Ok _ |- _ =>
        apply py_truediv_Ok in Hd; destruct Hd as [Hd _]; apply Hd
    end.
    rewrite Hn. reflexivity.
  - intros He stats H. unfold basic_stats in H. bind_inv H.
    match goal with
    | Hd : py_truediv (edge_length_total G) _ = Ok _ |- _ =>
        apply py_truediv_Ok in Hd; destruct Hd as [Hd _]; apply Hd
    end.
    rewrite He. reflexivity.
  - intros a stats Ha H. unfold basic_stats in H. bind_inv H.
    cbv beta iota zeta in H. bind_inv H.
    match goal with
    | Hd : py_truediv _ (a / 1000000)%Q = Ok _ |- _ =>
        apply py_truediv_Ok in Hd; destruct Hd as [Hd _]; apply Hd
    end.
    rewrite Ha. reflexivity.
  - intros Hdir stats H. unfold basic_stats in H. bind_inv H.
    match goal with
    | Hs : street_length_total _ = Ok _ |- _ =>
        unfold street_length_total in Hs; rewrite Hdir in Hs; discriminate Hs
    end.
Qed.

(** X12: a report has every one of the fourteen core keys, and no key outside
    the core and the six optional ones. *)
Theorem basic_stats_keys (G : Graph) (area clean_int_tol : option Q)
    (stats : gmap string value) :
  report_of G area clean_int_tol = Ok stats ->
  (forall k, In k report_core_keys -> is_Some (stats !! k)) ∧
  (forall k, is_Some (stats !! k) -> In k (report_core_keys ++ report_optional_keys)).
Proof.
  intros H. unfold basic_stats in H. bind_inv H.
  destruct area as [ar|]; destruct clean_int_tol as [tol|];
    try destruct (py_bool tol); bind_inv H; injection H as <-; split.
  all: try (intros k Hk; simpl in Hk;
            repeat (destruct Hk as [<-|Hk]; [eval_lookups; eauto|]);
            contradiction).
  all: intros k Hk; key_cases Hk.
Qed.

(** X13: the entries of a report are the results of the metric functions: those
    of the edges and of the street counts on the input graph, and those of
    the streets on its undirected view. *)
Theorem basic_stats_entries (G : Graph) (area clean_int_tol : option Q)
    (stats : gmap string value) :
  report_of G area clean_int_tol = Ok stats ->
  stats !! "edge_length_total" = Some (VFloat (edge_length_total G)) ∧
  stats !! "intersection_count" = Some (VInt (intersection_count G 2)) ∧
  (exists q, stats !! "streets_per_node_avg" = Some (VFloat q) ∧
             streets_per_node_avg G = Ok q) ∧
  (exists h, stats !! "streets_per_node_counts" = Some (VCounts h) ∧
             streets_per_node_counts G = Ok h) ∧
  (exists p, stats !! "streets_per_node_proportions" = Some (VProportions p) ∧
             streets_per_node_proportions G = Ok p) ∧
  (exists t, stats !! "street_length_total" = Some (VFloat t) ∧
             street_length_total (get_undirected G) = Ok t) ∧
  (exists c, stats !! "street_segment_count" = Some (VInt c) ∧
             street_segment_count (get_undirected G) = Ok c) ∧
  (exists c, stats !! "circuity_avg" = Some (circuity_value c) ∧
             circuity_avg is_projected euclidean_dist_vec great_circle_vec
                          (get_undirected G) = Ok c) ∧
  (exists p, stats !! "self_loop_proportion" = Some (VFloat p) ∧
             self_loop_proportion (get_undirected G) = Ok p).
Proof.
  intros H. unfold basic_stats in H. bind_inv H.
  destruct area as [ar|]; destruct clean_int_tol as [tol|];
    try destruct (py_bool tol); bind_inv H; injection H as <-;
    (split; [lookup_report|]); (split; [lookup_report|]);
    repeat (split; [eexists; split; [lookup_report|eassumption]|]);
    (eexists; split; [lookup_report|eassumption]).
Qed.

(** X14: the two mean lengths of a report are the total length over the number
    of edges, and the total street length over the number of street
    segments, neither of which is zero. *)
Theorem basic_stats_mean_lengths (G : Graph) (area clean_int_tol : option Q)
    (stats : gmap string value) :
  report_of G area clean_int_tol = Ok stats ->
  exists (ela sla slt : Q) (ssc : Z),
    stats !! "edge_length_avg" = Some (VFloat ela) ∧
    stats !! "street_length_avg" = Some (VFloat sla) ∧
    stats !! "street_length_total" = Some (VFloat slt) ∧
    stats !! "street_segment_count" = Some (VInt ssc) ∧
    edges G ≠ [] ∧ ssc ≠ 0 ∧
    ela == edge_length_total G / inject_Z (Z.of_nat (length (edges G))) ∧
    sla == slt / inject_Z ssc.
Proof.
  intros H. unfold basic_stats in H. bind_inv H.
  assert (He : edges G ≠ []).
  { match goal with
    | Hd : py_truediv (edge_length_total G) _ = Ok _ |- _ =>
        apply py_truediv_Ok in Hd; destruct Hd as [Hd _];
        intros He; apply Hd; rewrite He; reflexivity
    end. }
  match goal with
  | Hd : py_truediv (edge_length_total G) _ = Ok _ |- _ =>
      apply py_truediv_Ok in Hd; destruct Hd as [_ ->]
  end.
  match goal with
  | Hs : street_segment_count _ = Ok ?c, Hd : py_truediv _ (inject_Z ?c) = Ok _ |- _ =>
      apply py_truediv_Ok in Hd; destruct Hd as [Hd ->];
      assert (Hc : c ≠ 0) by (intros Hz; apply Hd; rewrite Hz; reflexivity)
  end.
  destruct area as [ar|]; destruct clean_int_tol as [tol|];
    try destruct (py_bool tol); bind_inv H; injection H as <-;
    eexists _, _, _, _;
    (split; [lookup_report|]); (split; [lookup_report|]);
    (split; [lookup_report|]); (split; [lookup_report|]);
    (split; [exact He|]); (split; [exact Hc|]); split; reflexivity.
Qed.

(** X15: with an area, the density entries of a report are the node count, the
    intersection count, the total edge length and the total street length
    over the area in square kilometres, and the area is not zero. *)
Theorem basic_stats_densities (G : Graph) (a : Q) (clean_int_tol : option Q)
    (stats : gmap string value) :
  report_of G (Some a) clean_int_tol = Ok stats ->
  ~ a == 0 ∧
  exists (nd id ed sd slt : Q),
    stats !! "node_density_km" = Some (VFloat nd) ∧
    stats !! "intersection_density_km" = Some (VFloat id) ∧
    stats !! "edge_density_km" = Some (VFloat ed) ∧
    stats !! "street_density_km" = Some (VFloat sd) ∧
    stats !! "street_length_total" = Some (VFloat slt) ∧
    nd == inject_Z (Z.of_nat (size (nodes G))) / (a / 1000000) ∧
    id == inject_Z (intersection_count G 2) / (a / 1000000) ∧
    ed == edge_length_total G / (a / 1000000) ∧
    sd == slt / (a / 1000000).
Proof.
  intros H. unfold basic_stats in H. bind_inv H.
  cbv beta iota zeta in H. bind_inv H.
  repeat match goal with
         | Hd : py_truediv _ (a / 1000000)%Q = Ok _ |- _ =>
             apply py_truediv_Ok in Hd; destruct Hd as [? ?]
         end.
  split.
  { intros Hzero.
    match goal with Hz : ~ (a / 1000000)%Q == 0 |- _ => apply Hz end.
    rewrite Hzero. reflexivity. }
  subst.
  destruct clean_int_tol as [tol|]; try destruct (py_bool tol);
    bind_inv H; injection H as <-;
    eexists _, _, _, _, _;
    repeat (split; [lookup_report|]);
    repeat (split; [reflexivity|]); reflexivity.
Qed.

End BasicStatsReport.

Lemma basic_stats_no_report_witness :
  (forall stats, sample_stats empty_graph None None ≠ Ok stats) ∧
  (forall stats, sample_stats edgeless None None ≠ Ok stats).
Proof.
  split.
  - apply (proj1 (basic_stats_no_report planar_crs axis_dist_vec axis_dist_vec no_merge
                    to_undirected empty_graph None None)).
    reflexivity.
  - apply (proj1 (proj2 (basic_stats_no_report planar_crs axis_dist_vec axis_dist_vec
                           no_merge to_undirected edgeless None None))).
    reflexivity.
Defined.

(** The sample reports are returned. *)
Lemma sample_stats_square :
  is_Ok (sample_stats square None None) = true ∧
  is_Ok (sample_stats square (Some (inject_Z 2000000)) None) = true ∧
  is_Ok (sample_stats square (Some (inject_Z 2000000)) (Some (inject_Z 15))) = true.
Proof. repeat split; vm_compute; reflexivity. Qed.

Ltac sample_report Hok :=
  match goal with
  | |- exists stats, ?r = Ok stats ∧ _ =>
      let E := fresh "E" in
      destruct r as [stats|e] eqn:E;
      [exists stats; split; [reflexivity|]
      |exfalso; discriminate Hok]
  end.

Lemma basic_stats_optional_keys_witness :
  exists stats : gmap string value,
    sample_stats square (Some (inject_Z 2000000)) (Some (inject_Z 15)) = Ok stats ∧
    is_Some (stats !! "node_density_km") ∧
    is_Some (stats !! "clean_intersection_count") ∧
    is_Some (stats !! "clean_intersection_density_km").
Proof.
  pose proof (proj2 (proj2 sample_stats_square)) as Hok. sample_report Hok.
  pose proof (basic_stats_optional_keys planar_crs axis_dist_vec axis_dist_vec no_merge
                to_undirected square (Some (inject_Z 2000000)) (Some (inject_Z 15))
                stats E) as Hk.
  cbv zeta in Hk. destruct Hk as (Hnd & _ & _ & _ & Hcc & Hcd).
  assert (Hreq : exists tol, Some (inject_Z 15) = Some tol ∧ py_bool tol = true)
    by (eexists; split; reflexivity).
  split; [apply Hnd; eauto|]. split; [apply Hcc; exact Hreq|].
  apply Hcd. split; [eauto|exact Hreq].
Defined.

Lemma basic_stats_keys_witness :
  exists stats : gmap string value,
    sample_stats square None None = Ok stats ∧
    (forall k, In k report_core_keys -> is_Some (stats !! k)) ∧
    (forall k, is_Some (stats !! k) -> In k (report_core_keys ++ report_optional_keys)).
Proof.
  pose proof (proj1 sample_stats_square) as Hok. sample_report Hok.
  exact (basic_stats_keys planar_crs axis_dist_vec axis_dist_vec no_merge to_undirected
           square None None stats E).
Defined.

Lemma basic_stats_entries_witness :
  exists stats : gmap string value,
    sample_stats square None None = Ok stats ∧
    stats !! "edge_length_total" = Some (VFloat (edge_length_total square)) ∧
    stats !! "intersection_count" = Some (VInt (intersection_count square 2)).
Proof.
  pose proof (proj1 sample_stats_square) as Hok. sample_report Hok.
  pose proof (basic_stats_entries planar_crs axis_dist_vec axis_dist_vec no_merge
                to_undirected square None None stats E) as He.
  destruct He as (H1 & H2 & _). split; [exact H1|exact H2].
Defined.

Lemma basic_stats_mean_lengths_witness :
  exists stats : gmap string value,
    sample_stats square None None = Ok stats ∧
    exists (ela sla slt : Q) (ssc : Z),
      stats !! "edge_length_avg" = Some (VFloat ela) ∧
      stats !! "street_length_avg" = Some (VFloat sla) ∧
      stats !! "street_length_total" = Some (VFloat slt) ∧
      stats !! "street_segment_count" = Some (VInt ssc) ∧
      edges square ≠ [] ∧ ssc ≠ 0 ∧
      ela == edge_length_total square / inject_Z (Z.of_nat (length (edges square))) ∧
      sla == slt / inject_Z ssc.
Proof.
  pose proof (proj1 sample_stats_square) as Hok. sample_report Hok.
  exact (basic_stats_mean_lengths planar_crs axis_dist_vec axis_dist_vec no_merge
           to_undirected square None None stats E).
Defined.

Lemma basic_stats_densities_witness :
  exists stats : gmap string value,
    sample_stats square (Some (inject_Z 2000000)) None = Ok stats ∧
    ~ inject_Z 2000000 == 0 ∧
    exists (nd id ed sd slt : Q),
      stats !! "node_density_km" = Some (VFloat nd) ∧
      stats !! "intersection_density_km" = Some (VFloat id) ∧
      stats !! "edge_density_km" = Some (VFloat ed) ∧
      stats !! "street_density_km" = Some (VFloat sd) ∧
      stats !! "street_length_total" = Some (VFloat slt) ∧
      nd == inject_Z (Z.of_nat (size (nodes square))) / (inject_Z 2000000 / 1000000) ∧
      id == inject_Z (intersection_count square 2) / (inject_Z 2000000 / 1000000) ∧
      ed == edge_length_total square / (inject_Z 2000000 / 1000000) ∧
      sd == slt / (inject_Z 2000000 / 1000000).
Proof.
  pose proof (proj1 (proj2 sample_stats_square)) as Hok. sample_report Hok.
  exact (basic_stats_densities planar_crs axis_dist_vec axis_dist_vec no_merge
           to_undirected square (inject_Z 2000000) None stats E).
Defined.

(** ** Extended statistics *)

#[local] Set Warnings "-clear-no-such-hyp".

Ltac block_dom Hb :=
  match type of Hb with
  | (if ?f then _ else _) = Ok _ =>
      destruct f; [bind_inv Hb|]; injection Hb as <-;
      rewrite ?dom_insert_L; set_solver
  end.

(** X16: the report of [extended_stats] has exactly the fifteen keys it always
    sets and the keys of the measures that its flags ask for. *)
Theorem extended_stats_keys (nx : networkx) (G : Graph)
    (connectivity anc ecc bc cc : bool) (stats : gmap string xvalue) :
  extended_stats nx G connectivity anc ecc bc cc = Ok stats ->
  forall k, is_Some (stats !! k) <-> In k (extended_keys connectivity anc ecc bc cc).
Proof.
  intros H. unfold extended_stats in H. bind_inv H. injection H as <-.
  repeat match goal with
         | Hb : (if ?f then _ else Ok ?S) = Ok ?S' |- _ =>
             let K := match f with
                      | connectivity => constr:(["node_connectivity"; "edge_connectivity"])
                      | anc => constr:(["node_connectivity_avg"])
                      | ecc => constr:(["eccentricity"; "diameter"; "radius"; "center"; "periphery"])
                      | cc => constr:(["closeness_centrality"; "closeness_centrality_avg"])
                      | bc => constr:(["betweenness_centrality"; "betweenness_centrality_avg"])
                      end in
             assert (dom S' = list_to_set (if f then K else []) ∪ dom S)
               by (clear -Hb; block_dom Hb);
             clear Hb
         end.
  intros k. rewrite <- elem_of_dom.
  repeat match goal with Hd : dom ?S' = _ |- context [dom ?S'] => rewrite Hd; clear Hd end.
  rewrite !dom_insert_L, dom_empty_L.
  rewrite <- list_elem_of_In, <- (elem_of_list_to_set (C:=gset string)).
  unfold extended_keys. rewrite !list_to_set_app_L. simpl list_to_set.
  set_solver.
Qed.

Lemma fold_max_spec (d : node_dict) (best : Z * Q) :
  let r := fold_left (fun best kv' : Z * Q =>
                        if Qlt_le_dec best.2 kv'.2 then kv' else best) d best in
  (r = best ∨ In r d) ∧ (best.2 <= r.2)%Q ∧ (forall kv, In kv d -> (kv.2 <= r.2)%Q).
Proof.
  revert best. induction d as [|kv d IH]; intros best; simpl.
  - split; [left; reflexivity|]. split; [apply Qle_refl|intros kv []].
  - destruct (Qlt_le_dec best.2 kv.2) as [Hlt|Hle].
    + destruct (IH kv) as (Hin & Hb & Hall). split; [|split].
      * destruct Hin as [->|Hin]; right; [left; reflexivity|right; exact Hin].
      * apply Qle_trans with kv.2; [apply Qlt_le_weak, Hlt|exact Hb].
      * intros kv' [<-|Hkv']; [exact Hb|exact (Hall kv' Hkv')].
    + destruct (IH best) as (Hin & Hb & Hall). split; [|split].
      * destruct Hin as [->|Hin]; [left; reflexivity|right; right; exact Hin].
      * exact Hb.
      * intros kv' [<-|Hkv']; [apply Qle_trans with best.2; assumption|exact (Hall kv' Hkv')].
Qed.

Lemma fold_min_spec (d : node_dict) (best : Z * Q) :
  let r := fold_left (fun best kv' : Z * Q =>
                        if Qlt_le_dec kv'.2 best.2 then kv' else best) d best in
  (r = best ∨ In r d) ∧ (r.2 <= best.2)%Q ∧ (forall kv, In kv d -> (r.2 <= kv.2)%Q).
Proof.
  revert best. induction d as [|kv d IH]; intros best; simpl.
  - split; [left; reflexivity|]. split; [apply Qle_refl|intros kv []].
  - destruct (Qlt_le_dec kv.2 best.2) as [Hlt|Hle].
    + destruct (IH kv) as (Hin & Hb & Hall). split; [|split].
      * destruct Hin as [->|Hin]; right; [left; reflexivity|right; exact Hin].
      * apply Qle_trans with kv.2; [exact Hb|apply Qlt_le_weak, Hlt].
      * intros kv' [<-|Hkv']; [exact Hb|exact (Hall kv' Hkv')].
    + destruct (IH best) as (Hin & Hb & Hall). split; [|split].
      * destruct Hin as [->|Hin]; [left; reflexivity|right; right; exact Hin].
      * exact Hb.
      * intros kv' [<-|Hkv']; [apply Qle_trans with best.2; assumption|exact (Hall kv' Hkv')].
Qed.

Lemma py_max_key_spec (d : node_dict) (k : Z) :
  py_max_key d = Ok k ->
  exists v, In (k, v) d ∧ forall kv, In kv d -> (kv.2 <= v)%Q.
Proof.
  destruct d as [|kv d]; [discriminate|]. unfold py_max_key. intros H. injection H as <-.
  destruct (fold_max_spec d kv) as (Hin & Hb & Hall).
  set (r := fold_left _ d kv) in *. exists r.2. split.
  - destruct r as [rk rv]. simpl. destruct Hin as [->|Hin]; [left; reflexivity|right; exact Hin].
  - intros kv' [<-|Hkv']; [exact Hb|exact (Hall kv' Hkv')].
Qed.

Lemma py_min_key_spec (d : node_dict) (k : Z) :
  py_min_key d = Ok k ->
  exists v, In (k, v) d ∧ forall kv, In kv d -> (v <= kv.2)%Q.
Proof.
  destruct d as [|kv d]; [discriminate|]. unfold py_min_key. intros H. injection H as <-.
  destruct (fold_min_spec d kv) as (Hin & Hb & Hall).
  set (r := fold_left _ d kv) in *. exists r.2. split.
  - destruct r as [rk rv]. simpl. destruct Hin as [->|Hin]; [left; reflexivity|right; exact Hin].
  - intros kv' [<-|Hkv']; [exact Hb|exact (Hall kv' Hkv')].
Qed.

Lemma dict_get_spec (d : node_dict) (k : Z) (v : Q) :
  dict_get d k = Ok v -> In (k, v) d.
Proof.
  unfold dict_get. destruct (List.find _ d) as [[k' v']|] eqn:E; [|discriminate].
  intros H. injection H as <-. apply List.find_some in E. destruct E as [Hin Hk].
  simpl in Hk. apply Z.eqb_eq in Hk. subst k'. exact Hin.
Qed.

Lemma dict_unique_value (d : node_dict) (k : Z) (v1 v2 : Q) :
  NoDup d.*1 -> In (k, v1) d -> In (k, v2) d -> v1 = v2.
Proof.
  induction d as [|[k' v'] d IH]; intros Hnd H1 H2; [destruct H1|].
  simpl in Hnd. apply NoDup_cons in Hnd. destruct Hnd as [Hk' Hnd].
  assert (Hout : forall v, In (k', v) d -> False).
  { intros v Hv. apply Hk'. apply list_elem_of_fmap. exists (k', v).
    split; [reflexivity|apply list_elem_of_In, Hv]. }
  destruct H1 as [E1|H1], H2 as [E2|H2].
  - congruence.
  - injection E1 as -> ->. destruct (Hout _ H2).
  - injection E2 as -> ->. destruct (Hout _ H1).
  - exact (IH Hnd H1 H2).
Qed.

Ltac through_blocks k :=
  repeat match goal with
         | Hb : (if ?f then _ else Ok ?S) = Ok ?S' |- context [?S' !! k] =>
             let Hk := fresh "Hk" in
             assert (Hk : S' !! k = S !! k)
               by (clear -Hb; destruct f; [bind_inv Hb|]; injection Hb as <-;
                   repeat (rewrite lookup_insert_ne by discriminate); reflexivity);
             rewrite Hk; clear Hk
         end.

Ltac xlookup k := through_blocks k; lookup_report.

(** X17: in a report of [extended_stats], the nodes of the largest and of the
    smallest PageRank are keys of the PageRank dictionary with the values
    reported for them, so the dictionary is not empty, and every value of
    the dictionary lies between the two. *)
Theorem extended_stats_pagerank (nx : networkx) (G : Graph)
    (connectivity anc ecc bc cc : bool) (stats : gmap string xvalue) :
  extended_stats nx G connectivity anc ecc bc cc = Ok stats ->
  exists (pr : node_dict) (nmax nmin : Z) (vmax vmin : Q),
    stats !! "pagerank" = Some (XDict pr) ∧
    stats !! "pagerank_max_node" = Some (XNode nmax) ∧
    stats !! "pagerank_max" = Some (XFloat vmax) ∧
    stats !! "pagerank_min_node" = Some (XNode nmin) ∧
    stats !! "pagerank_min" = Some (XFloat vmin) ∧
    In (nmax, vmax) pr ∧ In (nmin, vmin) pr ∧
    (NoDup pr.*1 -> forall k v, In (k, v) pr -> (vmin <= v <= vmax)%Q).
Proof.
  intros H. unfold extended_stats in H. bind_inv H. injection H as <-.
  match goal with
  | Hmax : py_max_key ?pr = Ok ?nmax, Hmin : py_min_key ?pr = Ok ?nmin,
    Hvmax : dict_get ?pr ?nmax = Ok ?vmax, Hvmin : dict_get ?pr ?nmin = Ok ?vmin |- _ =>
      exists pr, nmax, nmin, vmax, vmin;
      apply py_max_key_spec in Hmax; destruct Hmax as (v1 & Hin1 & Hall1);
      apply py_min_key_spec in Hmin; destruct Hmin as (v2 & Hin2 & Hall2);
      apply dict_get_spec in Hvmax; apply dict_get_spec in Hvmin
  end.
  split; [xlookup "pagerank"|]. split; [xlookup "pagerank_max_node"|].
  split; [xlookup "pagerank_max"|]. split; [xlookup "pagerank_min_node"|].
  split; [xlookup "pagerank_min"|]. split; [assumption|]. split; [assumption|].
  intros Hnd k v Hkv.
  match goal with
  | Ha : In (?nmax, ?vmax) ?pr, Hb : In (?nmax, v1) ?pr |- _ =>
      pose proof (dict_unique_value _ _ _ _ Hnd Ha Hb) as E1
  end.
  match goal with
  | Ha : In (?nmin, ?vmin) ?pr, Hb : In (?nmin, v2) ?pr |- _ =>
      pose proof (dict_unique_value _ _ _ _ Hnd Ha Hb) as E2
  end.
  subst. split; [exact (Hall2 _ Hkv)|exact (Hall1 _ Hkv)].
Qed.

Lemma dict_mean_Ok (d : node_dict) (q : Q) :
  dict_mean d = Ok q ->
  d ≠ [] ∧ q == py_sum_float d.*2 / inject_Z (Z.of_nat (length d)).
Proof.
  unfold dict_mean. intros H. apply py_truediv_Ok in H. destruct H as [Hnz ->].
  split; [|reflexivity]. intros ->. apply Hnz. reflexivity.
Qed.

(** X18: in a report of [extended_stats], each of the three averages over the
    nodes is the sum of the values of its dictionary over the number of its
    entries, and the dictionary is not empty. *)
Theorem extended_stats_means (nx : networkx) (G : Graph)
    (connectivity anc ecc bc cc : bool) (stats : gmap string xvalue) :
  extended_stats nx G connectivity anc ecc bc cc = Ok stats ->
  forall key : string,
    In key ["avg_neighbor_degree"; "avg_weighted_neighbor_degree"; "degree_centrality"] ->
    exists (d : node_dict) (q : Q),
      stats !! key = Some (XDict d) ∧
      stats !! (key +:+ "_avg") = Some (XFloat q) ∧
      d ≠ [] ∧ q == py_sum_float d.*2 / inject_Z (Z.of_nat (length d)).
Proof.
  intros H. unfold extended_stats in H. bind_inv H. injection H as <-.
  repeat match goal with
         | Hm : dict_mean _ = Ok _ |- _ => apply dict_mean_Ok in Hm; destruct Hm as [? ?]
         end.
  intros key Hkey. simpl in Hkey.
  destruct Hkey as [<-|[<-|[<-|[]]]]; simpl String.app; eexists _, _;
    (split; [match goal with |- ?S !! ?k = _ => xlookup k end|]);
    (split; [match goal with |- ?S !! ?k = _ => xlookup k end|]);
    split; eassumption.
Qed.

Lemma unit_networkx_square :
  is_Ok (extended_stats unit_networkx square true false true false false) = true.
Proof. vm_compute. reflexivity. Qed.

Lemma extended_stats_keys_witness :
  exists stats : gmap string xvalue,
    extended_stats unit_networkx square true false true false false = Ok stats ∧
    forall k, is_Some (stats !! k) <-> In k (extended_keys true false true false false).
Proof.
  pose proof unit_networkx_square as Hok. sample_report Hok.
  exact (extended_stats_keys unit_networkx square true false true false false stats E).
Defined.

Lemma extended_stats_pagerank_witness :
  exists stats : gmap string xvalue,
    extended_stats unit_networkx square true false true false false = Ok stats ∧
    exists (pr : node_dict) (nmax nmin : Z) (vmax vmin : Q),
      stats !! "pagerank" = Some (XDict pr) ∧
      stats !! "pagerank_max_node" = Some (XNode nmax) ∧
      stats !! "pagerank_max" = Some (XFloat vmax) ∧
      stats !! "pagerank_min_node" = Some (XNode nmin) ∧
      stats !! "pagerank_min" = Some (XFloat vmin) ∧
      In (nmax, vmax) pr ∧ In (nmin, vmin) pr ∧
      (NoDup pr.*1 -> forall k v, In (k, v) pr -> (vmin <= v <= vmax)%Q).
Proof.
  pose proof unit_networkx_square as Hok. sample_report Hok.
  exact (extended_stats_pagerank unit_networkx square true false true false false stats E).
Defined.

Lemma extended_stats_means_witness :
  exists stats : gmap string xvalue,
    extended_stats unit_networkx square true false true false false = Ok stats ∧
    exists (d : node_dict) (q : Q),
      stats !! "degree_centrality" = Some (XDict d) ∧
      stats !! "degree_centrality_avg" = Some (XFloat q) ∧
      d ≠ [] ∧ q == py_sum_float d.*2 / inject_Z (Z.of_nat (length d)).
Proof.
  pose proof unit_networkx_square as Hok. sample_report Hok.
  apply (extended_stats_means unit_networkx square true false true false false stats E
           "degree_centrality").
  simpl. tauto.
Defined.
